(** * open_deep_research: blog pipelines as graphs of stages

    A shallow embedding of the three pipeline modules
    (createPersonalityBlog.py, updatePeopleBlogs.py, updateBlogGraph.py):
    their state records, stage handlers, routers and graph builders, with
    the external collaborators (language model chains, the Tavily search
    tool, the web page loader) taken as parameters. *)

From Stdlib Require Import ZArith Lia Ascii String List DecimalString.
From stdpp Require Import base option list strings gmap.

Local Open Scope string_scope.
Local Open Scope list_scope.
Local Open Scope nat_scope.

(* ===================================================================== *)
(** ** Python values shared by the three modules *)
(* ===================================================================== *)

(** An exception value: an instance of Python's [Exception], which is what
    the collaborators raise. [exn_text] is [str(e)]. *)
Record exn := Exn { exn_class : string; exn_text : string }.

(** The outcome of a call that may raise. *)
Inductive result (A : Type) : Type :=
| Ok (a : A)
| Raise (e : exn).
Arguments Ok {A} a.
Arguments Raise {A} e.

#[global] Instance result_ret : MRet result := fun A a => Ok a.
#[global] Instance result_bind : MBind result := fun A B f m =>
  match m with
  | Ok a => f a
  | Raise e => Raise e
  end.

Definition is_ok {A} (r : result A) : bool :=
  match r with Ok _ => true | Raise _ => false end.

(** [try: ... except Exception as e: ...] *)
Definition try_except {A} (body : result A) (handler : exn -> A) : A :=
  match body with
  | Ok a => a
  | Raise e => handler e
  end.

(** Text. A Python [str] is modelled as a [string] whose characters are the
    code points below 256. *)
Definition nl : string := String (ascii_of_nat 10) "".

(** A search result as the Tavily tool yields it: a dictionary whose values
    are text or [None]. *)
Abbreviation Dict := (gmap string (option string)).

(** A value that the caller may hand to a suspended run. *)
Inductive pyval : Type :=
| PyNone
| PyBool (b : bool)
| PyInt (z : Z)
| PyStr (s : string)
| PyDict (d : Dict).

(** [isinstance(v, str)] *)
Definition is_str (v : pyval) : bool :=
  match v with PyStr _ => true | _ => false end.

(** Truthiness of an [Optional[str]]: [None] and [''] are falsy. *)
Definition truthy (v : option string) : bool :=
  match v with
  | Some s => negb (String.eqb s "")
  | None => false
  end.

(** [x or dflt] for an [Optional[str]]. *)
Definition or_else (v : option string) (dflt : string) : string :=
  match v with
  | Some s => if String.eqb s "" then dflt else s
  | None => dflt
  end.

(** [f"{v}"] for an [Optional[str]]. *)
Definition fmt (v : option string) : string :=
  match v with
  | Some s => s
  | None => "None"
  end.

(** [f"{n}"] for a non-negative [int]. *)
Definition fmt_nat (n : nat) : string := NilEmpty.string_of_uint (Nat.to_uint n).

(** [d.get(key, dflt)] *)
Definition dict_get (d : Dict) (key : string) (dflt : option string) : option string :=
  match d !! key with
  | Some v => v
  | None => dflt
  end.

(** [d.get(key)] *)
Definition dict_get1 (d : Dict) (key : string) : option string := dict_get d key None.

(** [v[:n]]: a slice of text; [None] is not subscriptable. *)
Definition slice_to (n : nat) (v : option string) : result string :=
  match v with
  | Some s => Ok (String.substring 0 n s)
  | None => Raise (Exn "TypeError" "'NoneType' object is not subscriptable")
  end.

(** The excerpt of a result: the first 500 characters of its content,
    nothing when the content is absent. *)
Definition excerpt (res : Dict) : string :=
  match dict_get1 res "content" with
  | Some s => String.substring 0 500 s
  | None => ""
  end.

(** [str.isspace] on one character, for code points below 256. *)
Definition is_space (c : ascii) : bool :=
  let n := nat_of_ascii c in
  ((9 <=? n) && (n <=? 13)) || ((28 <=? n) && (n <=? 32)) || (n =? 133) || (n =? 160).

(** [str.lower] on one character, for code points below 256. *)
Definition lower_char (c : ascii) : ascii :=
  let n := nat_of_ascii c in
  if ((65 <=? n) && (n <=? 90)) || ((192 <=? n) && (n <=? 222) && negb (n =? 215))
  then ascii_of_nat (n + 32)
  else c.

Fixpoint lower (s : string) : string :=
  match s with
  | EmptyString => EmptyString
  | String c s' => String (lower_char c) (lower s')
  end.

Fixpoint lstrip (s : string) : string :=
  match s with
  | EmptyString => EmptyString
  | String c s' => if is_space c then lstrip s' else s
  end.

Fixpoint rstrip (s : string) : string :=
  match s with
  | EmptyString => EmptyString
  | String c s' =>
      match rstrip s' with
      | EmptyString => if is_space c then EmptyString else String c EmptyString
      | r => String c r
      end
  end.

(** [s.strip()] *)
Definition strip (s : string) : string := rstrip (lstrip s).

(** [sep.join(parts)] *)
Definition join (sep : string) (parts : list string) : string := String.concat sep parts.

(* ===================================================================== *)
(** ** Graph definitions, as the builders declare them *)
(* ===================================================================== *)

Definition START : string := "__start__".
Definition END : string := "__end__".

(** One [add_conditional_edges(source, router, mapping)] call. [br_labels]
    lists the labels that the router's [return] statements produce. *)
Record Branch := {
  br_source : string;
  br_labels : list string;
  br_mapping : list (string * string)
}.

(** What a builder accumulates: [add_node] names in order, [add_edge]
    pairs, conditional edges, and for a handler annotated
    [Command[Literal[...]]] the destinations that the annotation names. *)
Record GraphDef := {
  nodes : list string;
  edges : list (string * string);
  branches : list Branch;
  command_ends : list (string * list string)
}.

Definition edge_targets (g : GraphDef) (n : string) : list string :=
  map snd (filter (fun e => bool_decide (fst e = n)) (edges g)).

Definition branch_targets (g : GraphDef) (n : string) : list string :=
  flat_map (fun b => if bool_decide (br_source b = n) then map snd (br_mapping b) else [])
           (branches g).

(** The declared outgoing edges of a stage: unconditional and conditional. *)
Definition out_targets (g : GraphDef) (n : string) : list string :=
  edge_targets g n ++ branch_targets g n.

(** The destinations a stage's handler may name in a Command. *)
Definition command_targets (g : GraphDef) (n : string) : list string :=
  flat_map (fun ce => if bool_decide (fst ce = n) then snd ce else []) (command_ends g).

(** Every stage that control can move to from [n]. *)
Definition successors (g : GraphDef) (n : string) : list string :=
  out_targets g n ++ command_targets g n.

(** Reachability from START along declared edges and Command destinations. *)
Inductive reachable (g : GraphDef) : string -> Prop :=
| reachable_start : reachable g START
| reachable_step a b : reachable g a -> b ∈ successors g a -> reachable g b.

(** One round of following successors from a set of stages. *)
Definition expand (g : GraphDef) (R : gset string) : gset string :=
  R ∪ list_to_set (flat_map (successors g) (elements R)).

Fixpoint reach_iter (g : GraphDef) (k : nat) (R : gset string) : gset string :=
  match k with
  | 0 => R
  | S k' => reach_iter g k' (expand g R)
  end.

(** Every stage identifier that the definition mentions. *)
Definition universe (g : GraphDef) : gset string :=
  {[ START ]} ∪ list_to_set (nodes g)
    ∪ list_to_set (map snd (edges g))
    ∪ list_to_set (flat_map (fun b => map snd (br_mapping b)) (branches g))
    ∪ list_to_set (flat_map snd (command_ends g)).

Definition reachable_set (g : GraphDef) : gset string :=
  reach_iter g (size (universe g)) {[ START ]}.

Definition registered (g : GraphDef) (n : string) : bool := bool_decide (n ∈ nodes g).

Definition is_source (g : GraphDef) (n : string) : bool :=
  bool_decide (n = START) || registered g n.

Definition is_target (g : GraphDef) (n : string) : bool :=
  bool_decide (n = END) || registered g n.

(** Reachability from START along declared edges only. *)
Inductive edge_reachable (g : GraphDef) : string -> Prop :=
| edge_reachable_start : edge_reachable g START
| edge_reachable_step a b :
    edge_reachable g a -> b ∈ out_targets g a -> edge_reachable g b.

(** Modelled from the spec: [validate()] of the Graph Definition (section
    4.1), which the source reaches through [builder.compile()] of the graph
    library and does not contain. It fails when a stage id is registered
    twice, when an edge or a conditional edge refers to a stage that was
    never registered, when a router can produce a label absent from its
    mapping, when START has no outgoing edge, and when a registered stage
    has zero outgoing edges. *)
Definition validate (g : GraphDef) : bool :=
  bool_decide (NoDup (nodes g))
  && forallb (fun e => is_source g (fst e) && is_target g (snd e)) (edges g)
  && forallb (fun b => is_source g (br_source b)
                       && forallb (fun lt => is_target g (snd lt)) (br_mapping b)
                       && forallb (fun l => bool_decide (l ∈ map fst (br_mapping b))) (br_labels b))
             (branches g)
  && negb (bool_decide (out_targets g START = []))
  && forallb (fun n => negb (bool_decide (out_targets g n = []))) (nodes g).

(* ===================================================================== *)
(** ** The executor *)
(* ===================================================================== *)

(** What a stage handler hands back. [ReturnedText] stands for a handler
    that returns a bare label, which is neither an update nor a Command. *)
Inductive Outcome (U : Type) : Type :=
| PartialUpdate (u : U)
| Command (goto : string) (update : U)
| SuspendRequest (payload : string)
| ReturnedText (label : string).
Arguments PartialUpdate {U} u.
Arguments Command {U} goto update.
Arguments SuspendRequest {U} payload.
Arguments ReturnedText {U} label.

(** [interrupt(payload)]: with a resume value at hand it returns that value,
    otherwise the stage stops and the payload is surfaced to the caller. *)
Definition interrupt {U} (payload : string) (resume : option pyval)
    (k : pyval -> result (Outcome U)) : result (Outcome U) :=
  match resume with
  | Some feedback => k feedback
  | None => Ok (SuspendRequest payload)
  end.

Inductive RunResult (St : Type) : Type :=
| Completed (final : St)
| Suspended (stage : string) (snapshot : St) (payload : string)
| Aborted (e : exn).
Arguments Completed {St} final.
Arguments Suspended {St} stage snapshot payload.
Arguments Aborted {St} e.

(** A compiled graph: the definition, the handler registered for each
    stage, the router of each conditional stage, and how a partial update
    is merged into the state. *)
Record Graph (St U : Type) := {
  gdef : GraphDef;
  handler_of : string -> option (St -> option pyval -> result (Outcome U));
  router_of : string -> option (St -> string);
  merge : St -> U -> St
}.
Arguments gdef {St U} g.
Arguments handler_of {St U} g n.
Arguments router_of {St U} g n.
Arguments merge {St U} g s u.

Inductive Step (St : Type) : Type :=
| Next (stage : string) (s : St)
| Stop (r : RunResult St).
Arguments Next {St} stage s.
Arguments Stop {St} r.

Definition InvalidTransitionError (n : string) : exn :=
  Exn "InvalidTransitionError" n.
Definition RouterContractViolation (label : string) : exn :=
  Exn "RouterContractViolation" label.
Definition InvalidUpdateError (label : string) : exn :=
  Exn "InvalidUpdateError" label.

(** [mapping[label]] *)
Fixpoint assoc (label : string) (mapping : list (string * string)) : option string :=
  match mapping with
  | [] => None
  | (l, t) :: rest => if bool_decide (l = label) then Some t else assoc label rest
  end.

Definition branch_of (g : GraphDef) (n : string) : option Branch :=
  head (filter (fun b => bool_decide (br_source b = n)) (branches g)).

Section Executor.
Context {St U : Type}.
Variable g : Graph St U.

(** Modelled from the spec: the Router step of section 4.3. The label of
    the router is resolved in the declared mapping; a label outside it
    is a RouterContractViolation. *)
Definition route (b : Branch) (s : St) : result string :=
  match router_of g (br_source b) with
  | Some router =>
      let label := router s in
      match assoc label (br_mapping b) with
      | Some target => Ok target
      | None => Raise (RouterContractViolation label)
      end
  | None => Raise (RouterContractViolation "")
  end.

(** Modelled from the spec: following the declared edges of a stage after
    its update was merged (section 4.2): the router's label for a
    conditional stage, the single unconditional edge otherwise. *)
Definition next_stage (n : string) (s : St) : result string :=
  match branch_of (gdef g) n with
  | Some b => route b s
  | None =>
      match edge_targets (gdef g) n with
      | t :: _ => Ok t
      | [] => Raise (InvalidTransitionError n)
      end
  end.

(** Modelled from the spec: one turn of the Executor loop of section 4.2
    at stage [n], with [resume] the external input when the stage is
    re-entered after a suspension. *)
Definition step (n : string) (s : St) (resume : option pyval) : Step St :=
  if bool_decide (n = END) then Stop (Completed s)
  else
    match handler_of g n with
    | None => Stop (Aborted (InvalidTransitionError n))
    | Some handler =>
        match handler s resume with
        | Raise e => Stop (Aborted e)
        | Ok (SuspendRequest payload) => Stop (Suspended n s payload)
        | Ok (ReturnedText label) => Stop (Aborted (InvalidUpdateError label))
        | Ok (Command goto u) =>
            if is_target (gdef g) goto then Next goto (merge g s u)
            else Stop (Aborted (InvalidTransitionError goto))
        | Ok (PartialUpdate u) =>
            let s' := merge g s u in
            match next_stage n s' with
            | Ok n' => Next n' s'
            | Raise e => Stop (Aborted e)
            end
        end
    end.

(** An execution from stage [n]: the stages visited, in order, and how the
    run ended. *)
Inductive drive : string -> St -> option pyval -> list string -> RunResult St -> Prop :=
| drive_stop n s resume r :
    step n s resume = Stop r -> drive n s resume [n] r
| drive_next n s resume n' s' visited r :
    step n s resume = Next n' s' ->
    drive n' s' None visited r ->
    drive n s resume (n :: visited) r.

(** The same loop with a bound on the number of turns. *)
Fixpoint drive_fuel (fuel : nat) (n : string) (s : St) (resume : option pyval)
    : option (list string * RunResult St) :=
  match fuel with
  | 0 => None
  | S fuel' =>
      match step n s resume with
      | Stop r => Some ([n], r)
      | Next n' s' =>
          match drive_fuel fuel' n' s' None with
          | Some (visited, r) => Some (n :: visited, r)
          | None => None
          end
      end
  end.


Definition start_fuel (fuel : nat) (s : St) : option (list string * RunResult St) :=
  match next_stage START s with
  | Ok n => drive_fuel fuel n s None
  | Raise e => Some ([], Aborted e)
  end.



End Executor.

(* ===================================================================== *)
(** ** createPersonalityBlog.py *)
(* ===================================================================== *)

Module CreatePersonalityBlog.

Inductive WorkflowState : Type :=
| RESEARCHING
| OUTLINE_CREATED
| OUTLINE_APPROVED
| BLOG_GENERATED.

Record PersonalityBlogState := {
  person : string;
  enneagram_type : string;
  status : WorkflowState;
  search_queries : list string;
  search_results : list Dict;
  person_research : option string;
  enneagram_research : option string;
  content_outline : option string;
  final_blog : option string;
  outline_approved : bool
}.

(** [PersonalityBlogState(person=..., enneagram_type=...)] *)
Definition initial_state (p t : string) : PersonalityBlogState :=
  {| person := p; enneagram_type := t; status := RESEARCHING;
     search_queries := []; search_results := [];
     person_research := None; enneagram_research := None;
     content_outline := None; final_blog := None;
     outline_approved := false |}.

(** Attribute assignments [state.field = v]. *)
Definition set_status (s : PersonalityBlogState) (v : WorkflowState) :=
  {| person := person s; enneagram_type := enneagram_type s; status := v;
     search_queries := search_queries s; search_results := search_results s;
     person_research := person_research s;
     enneagram_research := enneagram_research s;
     content_outline := content_outline s; final_blog := final_blog s;
     outline_approved := outline_approved s |}.

Definition set_search_queries (s : PersonalityBlogState) (v : list string) :=
  {| person := person s; enneagram_type := enneagram_type s; status := status s;
     search_queries := v; search_results := search_results s;
     person_research := person_research s;
     enneagram_research := enneagram_research s;
     content_outline := content_outline s; final_blog := final_blog s;
     outline_approved := outline_approved s |}.

Definition set_search_results (s : PersonalityBlogState) (v : list Dict) :=
  {| person := person s; enneagram_type := enneagram_type s; status := status s;
     search_queries := search_queries s; search_results := v;
     person_research := person_research s;
     enneagram_research := enneagram_research s;
     content_outline := content_outline s; final_blog := final_blog s;
     outline_approved := outline_approved s |}.

Definition set_person_research (s : PersonalityBlogState) (v : option string) :=
  {| person := person s; enneagram_type := enneagram_type s; status := status s;
     search_queries := search_queries s; search_results := search_results s;
     person_research := v;
     enneagram_research := enneagram_research s;
     content_outline := content_outline s; final_blog := final_blog s;
     outline_approved := outline_approved s |}.

Definition set_enneagram_research (s : PersonalityBlogState) (v : option string) :=
  {| person := person s; enneagram_type := enneagram_type s; status := status s;
     search_queries := search_queries s; search_results := search_results s;
     person_research := person_research s;
     enneagram_research := v;
     content_outline := content_outline s; final_blog := final_blog s;
     outline_approved := outline_approved s |}.

Definition set_content_outline (s : PersonalityBlogState) (v : option string) :=
  {| person := person s; enneagram_type := enneagram_type s; status := status s;
     search_queries := search_queries s; search_results := search_results s;
     person_research := person_research s;
     enneagram_research := enneagram_research s;
     content_outline := v; final_blog := final_blog s;
     outline_approved := outline_approved s |}.

Definition set_final_blog (s : PersonalityBlogState) (v : option string) :=
  {| person := person s; enneagram_type := enneagram_type s; status := status s;
     search_queries := search_queries s; search_results := search_results s;
     person_research := person_research s;
     enneagram_research := enneagram_research s;
     content_outline := content_outline s; final_blog := v;
     outline_approved := outline_approved s |}.

Definition set_outline_approved (s : PersonalityBlogState) (v : bool) :=
  {| person := person s; enneagram_type := enneagram_type s; status := status s;
     search_queries := search_queries s; search_results := search_results s;
     person_research := person_research s;
     enneagram_research := enneagram_research s;
     content_outline := content_outline s; final_blog := final_blog s;
     outline_approved := v |}.

(** The body of the [for i, result in enumerate(search_results)] loop:
    the block appended for the result [res] at index [i]. The slice is only
    evaluated when [result.get('content')] is truthy. *)
Definition format_block (i : nat) (res : Dict) : result string :=
  let title := dict_get res "title" (Some "No title") in
  let url := dict_get res "url" (Some "No URL") in
  content_preview ←
    (if truthy (dict_get1 res "content")
     then slice_to 500 (dict_get res "content" (Some ""))
     else Ok "");
  Ok ("RESULT " +:+ fmt_nat (i + 1) +:+ ":" +:+ nl
      +:+ "Title: " +:+ fmt title +:+ nl
      +:+ "URL: " +:+ fmt url +:+ nl
      +:+ "Content (excerpt): " +:+ content_preview +:+ "..." +:+ nl).

Fixpoint format_blocks (i : nat) (search_results : list Dict) : result (list string) :=
  match search_results with
  | [] => Ok []
  | r :: rest =>
      block ← format_block i r;
      blocks ← format_blocks (S i) rest;
      Ok (block :: blocks)
  end.

Definition format_search_results (search_results : list Dict) : result string :=
  match search_results with
  | [] => Ok "No search results found."
  | _ =>
      formatted ← format_blocks 0 search_results;
      Ok (join (nl +:+ nl) formatted)
  end.

(** The router, as a function on the state object it receives: the label
    it returns and the object after the call. *)
Definition check_outline_approval (state : PersonalityBlogState)
    : string * PersonalityBlogState :=
  if outline_approved state
  then ("approved", set_status state OUTLINE_APPROVED)
  else ("not_approved", state).

(** [update_and_approve_outline(state, updated_outline=None)] *)
Definition update_and_approve_outline (state : PersonalityBlogState)
    (updated_outline : option string) : PersonalityBlogState :=
  let state :=
    match updated_outline with
    | Some u => set_content_outline state (Some u)
    | None => state
    end in
  set_outline_approved state true.

Section Collaborators.
(** The structured-output chains and tools that the handlers invoke. *)
Variable query_chain : string -> string -> result (list string * list string).
Variable tavily_search : string -> result (list Dict).
Variable research_chain : string -> string -> string -> result (string * string).
Variable outline_chain :
  string -> string -> option string -> option string -> result string.
Variable blog_chain :
  string -> string -> option string -> option string -> option string -> result string.

Definition generate_search_queries (state : PersonalityBlogState)
    : result PersonalityBlogState :=
  queries ← query_chain (person state) (enneagram_type state);
  Ok (set_search_queries state (fst queries ++ snd queries)).

(** The [for query in state.search_queries] loop over the local list
    [search_results]. *)
Fixpoint search_loop (queries : list string) (search_results : list Dict)
    : result (list Dict) :=
  match queries with
  | [] => Ok search_results
  | query :: rest =>
      results ← tavily_search query;
      search_loop rest
        (match results with
         | [] => search_results
         | _ => search_results ++ results
         end)
  end.

Definition search_web (state : PersonalityBlogState) : result PersonalityBlogState :=
  search_results ← search_loop (search_queries state) [];
  Ok (set_search_results state search_results).

Definition organize_research (state : PersonalityBlogState)
    : result PersonalityBlogState :=
  search_results_str ← format_search_results (search_results state);
  research ← research_chain (person state) (enneagram_type state) search_results_str;
  let state := set_person_research state (Some (fst research)) in
  Ok (set_enneagram_research state (Some (snd research))).

Definition create_content_outline (state : PersonalityBlogState)
    : result PersonalityBlogState :=
  outline ← outline_chain (person state) (enneagram_type state)
               (person_research state) (enneagram_research state);
  let state := set_content_outline state (Some outline) in
  Ok (set_status state OUTLINE_CREATED).

Definition generate_blog_content (state : PersonalityBlogState)
    : result PersonalityBlogState :=
  blog ← blog_chain (person state) (enneagram_type state) (content_outline state)
            (person_research state) (enneagram_research state);
  let state := set_final_blog state (Some blog) in
  Ok (set_status state BLOG_GENERATED).

(** A handler that returns the state object it was given. *)
Definition as_node (h : PersonalityBlogState -> result PersonalityBlogState)
    : PersonalityBlogState -> option pyval -> result (Outcome PersonalityBlogState) :=
  fun state _ => s' ← h state; Ok (PartialUpdate s').

(** The [add_node] calls. *)
Definition handlers (n : string)
    : option (PersonalityBlogState -> option pyval
              -> result (Outcome PersonalityBlogState)) :=
  if bool_decide (n = "generate_search_queries") then Some (as_node generate_search_queries)
  else if bool_decide (n = "search_web") then Some (as_node search_web)
  else if bool_decide (n = "organize_research") then Some (as_node organize_research)
  else if bool_decide (n = "create_content_outline") then Some (as_node create_content_outline)
  else if bool_decide (n = "check_outline_approval")
    then Some (fun state _ => Ok (ReturnedText (fst (check_outline_approval state))))
  else if bool_decide (n = "update_and_approve_outline")
    then Some (as_node (fun state => Ok (update_and_approve_outline state None)))
  else if bool_decide (n = "generate_blog_content") then Some (as_node generate_blog_content)
  else None.

(** The router attached by [add_conditional_edges]: the executor takes
    its label and reads nothing else from it. *)
Definition routers (n : string) : option (PersonalityBlogState -> string) :=
  if bool_decide (n = "create_content_outline")
  then Some (fun state => fst (check_outline_approval state))
  else None.
End Collaborators.

(** The mapping of the conditional edges of [create_content_outline]. *)
Definition approval_branch : Branch :=
  {| br_source := "create_content_outline";
     br_labels := ["approved"; "not_approved"];
     br_mapping := [("approved", "generate_blog_content"); ("not_approved", END)] |}.

Definition builder : GraphDef :=
  {| nodes := ["generate_search_queries"; "search_web"; "organize_research";
               "create_content_outline"; "check_outline_approval";
               "update_and_approve_outline"; "generate_blog_content"];
     edges := [(START, "generate_search_queries");
               ("generate_search_queries", "search_web");
               ("search_web", "organize_research");
               ("organize_research", "create_content_outline");
               ("update_and_approve_outline", "check_outline_approval");
               ("generate_blog_content", END)];
     branches := [approval_branch];
     command_ends := [] |}.

(** [graph = builder.compile()]; a returned state object replaces the
    state field by field. *)
Definition graph query_chain tavily_search research_chain outline_chain blog_chain
    : Graph PersonalityBlogState PersonalityBlogState :=
  {| gdef := builder;
     handler_of := handlers query_chain tavily_search research_chain
                            outline_chain blog_chain;
     router_of := routers;
     merge := fun _ returned => returned |}.

End CreatePersonalityBlog.

(** A loaded page: [page_content] is its text, [None] when it has none. *)
Record Document := { page_content : option string }.

(* ===================================================================== *)
(** ** updatePeopleBlogs.py *)
(* ===================================================================== *)

Module UpdatePeopleBlogs.

Record BlogUpdateState := {
  blog_url : string;
  current_content : option string;
  outline : option string;
  person : option string;
  enneagram_type : option string;
  suggestions : option string;
  search_queries : list string;
  search_results : list Dict;
  proposed_outline : option string
}.

(** [BlogUpdateState(blog_url=...)] *)
Definition initial_state (url : string) : BlogUpdateState :=
  {| blog_url := url; current_content := None; outline := None; person := None;
     enneagram_type := None; suggestions := None; search_queries := [];
     search_results := []; proposed_outline := None |}.

Definition set_current_content (s : BlogUpdateState) (v : option string) :=
  {| blog_url := blog_url s; current_content := v; outline := outline s;
     person := person s; enneagram_type := enneagram_type s;
     suggestions := suggestions s; search_queries := search_queries s;
     search_results := search_results s; proposed_outline := proposed_outline s |}.

Definition set_search_queries (s : BlogUpdateState) (v : list string) :=
  {| blog_url := blog_url s; current_content := current_content s; outline := outline s;
     person := person s; enneagram_type := enneagram_type s;
     suggestions := suggestions s; search_queries := v;
     search_results := search_results s; proposed_outline := proposed_outline s |}.

Definition set_search_results (s : BlogUpdateState) (v : list Dict) :=
  {| blog_url := blog_url s; current_content := current_content s; outline := outline s;
     person := person s; enneagram_type := enneagram_type s;
     suggestions := suggestions s; search_queries := search_queries s;
     search_results := v; proposed_outline := proposed_outline s |}.

Definition set_proposed_outline (s : BlogUpdateState) (v : option string) :=
  {| blog_url := blog_url s; current_content := current_content s; outline := outline s;
     person := person s; enneagram_type := enneagram_type s;
     suggestions := suggestions s; search_queries := search_queries s;
     search_results := search_results s; proposed_outline := v |}.

(** The structured output of the analysis chain. *)
Record AnalyzeContentOutput := {
  a_person : string;
  a_enneagram_type : string;
  a_outline : string;
  a_suggestions : string
}.

(** The four assignments that store an analysis. *)
Definition set_analysis (s : BlogUpdateState) (a : AnalyzeContentOutput) :=
  {| blog_url := blog_url s; current_content := current_content s;
     outline := Some (a_outline a);
     person := Some (a_person a); enneagram_type := Some (a_enneagram_type a);
     suggestions := Some (a_suggestions a); search_queries := search_queries s;
     search_results := search_results s; proposed_outline := proposed_outline s |}.

Definition format_block (res : Dict) : result string :=
  let title := dict_get res "title" (Some "No title") in
  let url := dict_get res "url" (Some "No URL") in
  content_preview ←
    (if truthy (dict_get1 res "content")
     then slice_to 500 (dict_get res "content" (Some ""))
     else Ok "");
  Ok ("Title: " +:+ fmt title +:+ nl
      +:+ "URL: " +:+ fmt url +:+ nl
      +:+ "Content (excerpt): " +:+ content_preview +:+ "..." +:+ nl).

Fixpoint format_blocks (search_results : list Dict) : result (list string) :=
  match search_results with
  | [] => Ok []
  | r :: rest =>
      block ← format_block r;
      blocks ← format_blocks rest;
      Ok (block :: blocks)
  end.

Definition format_search_results (search_results : list Dict) : result string :=
  match search_results with
  | [] => Ok "No search results found."
  | _ =>
      formatted ← format_blocks search_results;
      Ok (join nl formatted)
  end.

Section Collaborators.
(** [WebBaseLoader(url).load()] *)
Variable load_documents : string -> result (list Document).
Variable analyze_chain : option string -> result AnalyzeContentOutput.
Variable query_chain :
  option string -> option string -> option string -> result (list string).
Variable tavily_search : string -> result (list Dict).
Variable outline_chain : option string -> option string -> string -> result string.

(** The [try] body of [fetch_blog_content]. *)
Definition fetch_body (state : BlogUpdateState) : result BlogUpdateState :=
  documents ← load_documents (blog_url state);
  match documents with
  | [] => Ok (set_current_content state
                (Some "No content could be loaded from the blog URL."))
  | doc :: _ =>
      if truthy (page_content doc)
      then Ok (set_current_content state (page_content doc))
      else Ok (set_current_content state
                 (Some "No content could be loaded from the blog URL."))
  end.

Definition fetch_blog_content (state : BlogUpdateState) : BlogUpdateState :=
  try_except (fetch_body state)
    (fun e => set_current_content state
                (Some ("Error loading blog: " +:+ exn_text e))).

Definition analyze_content (state : BlogUpdateState) : result BlogUpdateState :=
  analysis ← analyze_chain (current_content state);
  Ok (set_analysis state analysis).

Definition generate_search_queries (state : BlogUpdateState) : result BlogUpdateState :=
  queries ← query_chain (person state) (outline state) (suggestions state);
  Ok (set_search_queries state queries).

Fixpoint search_loop (queries : list string) (search_results : list Dict)
    : result (list Dict) :=
  match queries with
  | [] => Ok search_results
  | query :: rest =>
      results ← tavily_search query;
      search_loop rest
        (match results with
         | [] => search_results
         | _ => search_results ++ results
         end)
  end.

Definition search_web (state : BlogUpdateState) : result BlogUpdateState :=
  search_results ← search_loop (search_queries state) [];
  Ok (set_search_results state search_results).

Definition create_outline (state : BlogUpdateState) : result BlogUpdateState :=
  search_results_str ← format_search_results (search_results state);
  outline_response ← outline_chain (person state) (outline state) search_results_str;
  Ok (set_proposed_outline state (Some outline_response)).

Definition as_node (h : BlogUpdateState -> result BlogUpdateState)
    : BlogUpdateState -> option pyval -> result (Outcome BlogUpdateState) :=
  fun state _ => s' ← h state; Ok (PartialUpdate s').

Definition handlers (n : string)
    : option (BlogUpdateState -> option pyval -> result (Outcome BlogUpdateState)) :=
  if bool_decide (n = "fetch_blog_content")
    then Some (as_node (fun state => Ok (fetch_blog_content state)))
  else if bool_decide (n = "analyze_content") then Some (as_node analyze_content)
  else if bool_decide (n = "generate_search_queries")
    then Some (as_node generate_search_queries)
  else if bool_decide (n = "search_web") then Some (as_node search_web)
  else if bool_decide (n = "create_outline") then Some (as_node create_outline)
  else None.
End Collaborators.

Definition builder : GraphDef :=
  {| nodes := ["fetch_blog_content"; "analyze_content"; "generate_search_queries";
               "search_web"; "create_outline"];
     edges := [(START, "fetch_blog_content");
               ("fetch_blog_content", "analyze_content");
               ("analyze_content", "generate_search_queries");
               ("generate_search_queries", "search_web");
               ("search_web", "create_outline");
               ("create_outline", END)];
     branches := [];
     command_ends := [] |}.

Definition graph load_documents analyze_chain query_chain tavily_search outline_chain
    : Graph BlogUpdateState BlogUpdateState :=
  {| gdef := builder;
     handler_of := handlers load_documents analyze_chain query_chain
                            tavily_search outline_chain;
     router_of := fun _ => None;
     merge := fun _ returned => returned |}.

End UpdatePeopleBlogs.

(* ===================================================================== *)
(** ** updateBlogGraph.py *)
(* ===================================================================== *)

Module UpdateBlogGraph.

Record BlogUpdateState := {
  blog_url : string;
  current_content : option string;
  summary : option string;
  suggestions : option string;
  search_queries : option (list string);
  search_results : option (list Dict);
  proposed_outline : option string;
  approved_outline : option string;
  new_content : option string;
  updated_blog : option string
}.

(** [BlogUpdateState(blog_url=...)] *)
Definition initial_state (url : string) : BlogUpdateState :=
  {| blog_url := url; current_content := None; summary := None; suggestions := None;
     search_queries := Some []; search_results := Some [];
     proposed_outline := None; approved_outline := None;
     new_content := None; updated_blog := None |}.

(** One [key: value] entry of a dictionary that a handler returns. *)
Inductive Assign : Type :=
| Set_current_content (v : string)
| Set_summary (v : string)
| Set_suggestions (v : string)
| Set_search_queries (v : list string)
| Set_search_results (v : list Dict)
| Set_proposed_outline (v : string)
| Set_approved_outline (v : string)
| Set_new_content (v : string)
| Set_updated_blog (v : string).

(** Writing one entry: the field it names takes the value, the others stay. *)
Definition assign (s : BlogUpdateState) (a : Assign) : BlogUpdateState :=
  {| blog_url := blog_url s;
     current_content :=
       match a with Set_current_content v => Some v | _ => current_content s end;
     summary := match a with Set_summary v => Some v | _ => summary s end;
     suggestions := match a with Set_suggestions v => Some v | _ => suggestions s end;
     search_queries :=
       match a with Set_search_queries v => Some v | _ => search_queries s end;
     search_results :=
       match a with Set_search_results v => Some v | _ => search_results s end;
     proposed_outline :=
       match a with Set_proposed_outline v => Some v | _ => proposed_outline s end;
     approved_outline :=
       match a with Set_approved_outline v => Some v | _ => approved_outline s end;
     new_content := match a with Set_new_content v => Some v | _ => new_content s end;
     updated_blog := match a with Set_updated_blog v => Some v | _ => updated_blog s end |}.

(** Merging a returned dictionary into the state. *)
Definition merge_update (s : BlogUpdateState) (update : list Assign) : BlogUpdateState :=
  fold_left assign update s.

(** Here the slice is taken without a test of the value first. *)
Definition format_block (res : Dict) : result string :=
  let title := dict_get res "title" (Some "No title") in
  let url := dict_get res "url" (Some "No URL") in
  content_preview ← slice_to 500 (dict_get res "content" (Some ""));
  Ok ("Title: " +:+ fmt title +:+ nl
      +:+ "URL: " +:+ fmt url +:+ nl
      +:+ "Content (excerpt): " +:+ content_preview +:+ "..." +:+ nl).

Fixpoint format_blocks (search_results : list Dict) : result (list string) :=
  match search_results with
  | [] => Ok []
  | r :: rest =>
      block ← format_block r;
      blocks ← format_blocks rest;
      Ok (block :: blocks)
  end.

Definition format_search_results (search_results : list Dict) : result string :=
  match search_results with
  | [] => Ok "No search results found."
  | _ =>
      formatted ← format_blocks search_results;
      Ok (join nl formatted)
  end.

(** [feedback.strip().lower() == "approve"] behind the [isinstance] test. *)
Definition approves (feedback : pyval) : bool :=
  match feedback with
  | PyStr f => String.eqb (lower (strip f)) "approve"
  | _ => false
  end.

(** [feedback if isinstance(feedback, str) else ""] *)
Definition revised_of (feedback : pyval) : string :=
  match feedback with
  | PyStr f => f
  | _ => ""
  end.

Definition feedback_prompt (proposed_outline : string) : string :=
  "Here is the proposed outline for additional content:" +:+ nl +:+ nl
  +:+ proposed_outline +:+ nl +:+ nl
  +:+ "If you approve this outline, type 'approve'. Otherwise, type any revisions you want to make:"
  +:+ nl.

Definition human_feedback (state : BlogUpdateState) (resume : option pyval)
    : result (Outcome (list Assign)) :=
  let proposed_outline := or_else (proposed_outline state) "No outline was generated." in
  interrupt (feedback_prompt proposed_outline) resume (fun feedback =>
    if approves feedback
    then Ok (Command "generate_new_content" [Set_approved_outline proposed_outline])
    else
      let revised_outline := revised_of feedback in
      Ok (Command "create_outline" [Set_proposed_outline revised_outline])).

Definition update_blog (state : BlogUpdateState) : list Assign :=
  let current_content := or_else (current_content state) "No original blog content found." in
  let new_content := or_else (new_content state) "No new content was generated." in
  [Set_updated_blog (current_content +:+ nl +:+ nl
                     +:+ "## Updates" +:+ nl +:+ nl
                     +:+ new_content)].

Section Collaborators.
Variable load_documents : string -> result (list Document).
Variable analyze_chain : option string -> result (string * string).
Variable query_chain : option string -> option string -> result (list string).
Variable content_chain : option string -> result string.

(** [TavilySearchResults(max_results=5)]: building the search tool, which
    may raise, gives the tool that the loop invokes. *)
Variable new_tavily_search : result (string -> result (list Dict)).

(** [ChatOpenAI(model="gpt-4", temperature=0)] and the chain made of the
    prompt and the model, built at the top of [create_outline]: the
    construction may raise, and gives the chain that is invoked on the
    formatted results. In the other handlers nothing happens between the
    construction and the call, and the chain parameter stands for both. *)
Variable new_outline_chain : result (string -> result string).

(** No [try] here: an error of the loader leaves the handler. *)
Definition fetch_blog_content (state : BlogUpdateState) : result (list Assign) :=
  documents ← load_documents (blog_url state);
  match documents with
  | [] => Ok [Set_current_content "No content could be loaded from the blog URL."]
  | doc :: _ =>
      match page_content doc with
      | Some text =>
          if truthy (Some text)
          then Ok [Set_current_content text]
          else Ok [Set_current_content "No content could be loaded from the blog URL."]
      | None => Ok [Set_current_content "No content could be loaded from the blog URL."]
      end
  end.

Definition analyze_content (state : BlogUpdateState) : result (list Assign) :=
  analysis ← analyze_chain (current_content state);
  Ok [Set_summary (fst analysis); Set_suggestions (snd analysis)].

Definition generate_search_queries (state : BlogUpdateState) : result (list Assign) :=
  queries ← query_chain (summary state) (suggestions state);
  Ok [Set_search_queries queries].

Fixpoint search_loop (tavily_search : string -> result (list Dict))
    (queries : list string) (search_results : list Dict) : result (list Dict) :=
  match queries with
  | [] => Ok search_results
  | query :: rest =>
      results ← tavily_search query;
      search_loop tavily_search rest
        (match results with
         | [] => search_results
         | _ => search_results ++ results
         end)
  end.

Definition search_web (state : BlogUpdateState) : result (list Assign) :=
  tavily_search ← new_tavily_search;
  let queries := default [] (search_queries state) in
  search_results ← search_loop tavily_search queries [];
  Ok [Set_search_results search_results].

Definition create_outline (state : BlogUpdateState) : result (list Assign) :=
  chain ← new_outline_chain;
  search_results_str ← format_search_results (default [] (search_results state));
  outline_response ← chain search_results_str;
  Ok [Set_proposed_outline outline_response].

Definition generate_new_content (state : BlogUpdateState) : result (list Assign) :=
  new_content_response ← content_chain (approved_outline state);
  Ok [Set_new_content new_content_response].

(** A handler that returns a dictionary of updates. *)
Definition as_node (h : BlogUpdateState -> result (list Assign))
    : BlogUpdateState -> option pyval -> result (Outcome (list Assign)) :=
  fun state _ => u ← h state; Ok (PartialUpdate u).

Definition handlers (n : string)
    : option (BlogUpdateState -> option pyval -> result (Outcome (list Assign))) :=
  if bool_decide (n = "fetch_blog_content") then Some (as_node fetch_blog_content)
  else if bool_decide (n = "analyze_content") then Some (as_node analyze_content)
  else if bool_decide (n = "generate_search_queries")
    then Some (as_node generate_search_queries)
  else if bool_decide (n = "search_web") then Some (as_node search_web)
  else if bool_decide (n = "create_outline") then Some (as_node create_outline)
  else if bool_decide (n = "human_feedback") then Some human_feedback
  else if bool_decide (n = "generate_new_content") then Some (as_node generate_new_content)
  else if bool_decide (n = "update_blog")
    then Some (as_node (fun state => Ok (update_blog state)))
  else None.
End Collaborators.

(** [human_feedback] has no [add_edge] of its own; its destinations are
    those of its [Command[Literal[...]]] annotation. *)
Definition builder : GraphDef :=
  {| nodes := ["fetch_blog_content"; "analyze_content"; "generate_search_queries";
               "search_web"; "create_outline"; "human_feedback";
               "generate_new_content"; "update_blog"];
     edges := [(START, "fetch_blog_content");
               ("fetch_blog_content", "analyze_content");
               ("analyze_content", "generate_search_queries");
               ("generate_search_queries", "search_web");
               ("search_web", "create_outline");
               ("create_outline", "human_feedback");
               ("generate_new_content", "update_blog");
               ("update_blog", END)];
     branches := [];
     command_ends := [("human_feedback", ["create_outline"; "generate_new_content"])] |}.

Definition graph load_documents analyze_chain query_chain content_chain
    new_tavily_search new_outline_chain : Graph BlogUpdateState (list Assign) :=
  {| gdef := builder;
     handler_of := handlers load_documents analyze_chain query_chain content_chain
                            new_tavily_search new_outline_chain;
     router_of := fun _ => None;
     merge := merge_update |}.

End UpdateBlogGraph.

(* ===================================================================== *)
(** ** Concrete collaborators and inputs, for running the definitions *)
(* ===================================================================== *)

Module Sample.

Definition full_result : Dict :=
  {[ "title" := Some "T"; "url" := Some "U"; "content" := Some "text" ]}.

(** A result whose excerpt is absent: ['content': None]. *)
Definition null_content : Dict :=
  {[ "title" := Some "T"; "url" := Some "U"; "content" := None ]}.

(** A result with no keys at all. *)
Definition bare_result : Dict := ∅.

Definition other_result : Dict :=
  {[ "title" := Some "T2"; "url" := Some "U2"; "content" := Some "more" ]}.

Definition timeout_error : exn := Exn "TimeoutError" "search timed out".

(** A search service that answers every query with one result. *)
Definition search_one (query : string) : result (list Dict) := Ok [other_result].

(** A search service that fails on every query. *)
Definition search_down (query : string) : result (list Dict) := Raise timeout_error.

(** A search service that fails on the query ["bad"] only. *)
Definition search_flaky (query : string) : result (list Dict) :=
  if String.eqb query "bad" then Raise timeout_error else Ok [other_result].

Definition load_page (url : string) : result (list Document) :=
  Ok [ {| page_content := Some "old post" |} ].

Definition load_empty (url : string) : result (list Document) := Ok [].

Definition load_fails (url : string) : result (list Document) :=
  Raise (Exn "ConnectionError" "no route").

Module Personality.
Import CreatePersonalityBlog.

Definition query_chain (p t : string) : result (list string * list string) :=
  Ok (["who"], ["type"]).
Definition research_chain (p t r : string) : result (string * string) :=
  Ok ("life", "pattern").
Definition outline_chain (p t : string) (pr er : option string) : result string :=
  Ok "outline v1".
Definition blog_chain (p t : string) (o pr er : option string) : result string :=
  Ok "post".

Definition graph_one : Graph PersonalityBlogState PersonalityBlogState :=
  graph query_chain search_one research_chain outline_chain blog_chain.

Definition s0 : PersonalityBlogState := initial_state "Margot Robbie" "2".

(** A state that already holds a result and has one query pending. *)
Definition s_prior : PersonalityBlogState :=
  set_search_queries (set_search_results s0 [full_result]) ["q"].

Definition s_approved : PersonalityBlogState := set_outline_approved s0 true.
End Personality.

Module People.
Import UpdatePeopleBlogs.

Definition s0 : BlogUpdateState := initial_state "https://example.com/blog".

Definition s_prior : BlogUpdateState :=
  set_search_queries (set_search_results s0 [full_result]) ["q"].

Definition s_bad : BlogUpdateState := set_search_queries s0 ["a"; "bad"; "c"].
End People.

Module Blog.
Import UpdateBlogGraph.

Definition analyze_chain (c : option string) : result (string * string) :=
  Ok ("sum", "sug").
Definition query_chain (a b : option string) : result (list string) := Ok ["q1"].
Definition outline_chain (r : string) : result string := Ok "v1".
Definition content_chain (o : option string) : result string := Ok "fresh".

Definition graph_one : Graph BlogUpdateState (list Assign) :=
  graph load_page analyze_chain query_chain content_chain (Ok search_one) (Ok outline_chain).

Definition s0 : BlogUpdateState := initial_state "https://example.com/blog".

(** A state whose proposed outline is the empty text. *)
Definition s_empty_outline : BlogUpdateState := assign s0 (Set_proposed_outline "").

Definition s_outline : BlogUpdateState := assign s0 (Set_proposed_outline "v1").
End Blog.

End Sample.

(* ===================================================================== *)
(** ** configuration.py *)
(* ===================================================================== *)

Module Configuration.

Inductive SearchAPI : Type := PERPLEXITY | TAVILY.
Inductive PlannerProvider : Type := PLANNER_ANTHROPIC | PLANNER_OPENAI | PLANNER_GROQ.
Inductive WriterProvider : Type := WRITER_ANTHROPIC | WRITER_OPENAI | WRITER_GROQ.

(** A value held by a configuration field: the dataclass does not check
    types, so a field holds whatever was passed, or its default, which for
    three fields is an enum member. *)
Inductive cfgval : Type :=
| Py (v : pyval)
| Planner (p : PlannerProvider)
| Writer (w : WriterProvider)
| Search (a : SearchAPI).

(** Truthiness: [None], [False], [0], [''] and [{}] are falsy; enum members
    are truthy. *)
Definition cfg_truthy (v : cfgval) : bool :=
  match v with
  | Py PyNone => false
  | Py (PyBool b) => b
  | Py (PyInt z) => negb (Z.eqb z 0)
  | Py (PyStr s) => negb (String.eqb s "")
  | Py (PyDict d) => negb (bool_decide (d = ∅))
  | Planner _ | Writer _ | Search _ => true
  end.

Definition DEFAULT_REPORT_STRUCTURE : string :=
"Use this structure to gather and organize information about a person's personality traits, background, and characteristics:

1. Introduction (Information Gathering)
- Notable quotes by or about [PERSON] that reveal personality
- Basic background information
- Why this person is significant
- Initial personality indicators

2. Personality Classification
- Likely personality type according to chosen framework (Enneagram, MBTI, etc.)
- Key traits associated with this personality type
- Common behaviors and thinking patterns for this type

3. Formative Background
- Family dynamics and childhood experiences
- Education and early influences
- Key challenges or obstacles overcome
- How these factors shaped their personality development

4. Career Evolution
- Major career milestones
- Working style and professional relationships
- Decision-making patterns
- How their personality manifests in professional contexts

5. Personal Patterns & Habits
- Daily routines and preferences
- Communication style
- Relationships and social patterns
- Unique quirks or characteristics
- Stress responses and coping mechanisms

6. Worldview & Values
- Core beliefs and principles
- Causes they support
- How they view success and failure
- Decision-making frameworks they employ

7. Public Perception vs. Private Reality
- How they're perceived by others
- What colleagues/friends have said about them
- Contrast between public persona and private self
- Evolution of their public image over time

8. Growth & Adaptation
- How they've evolved over time
- Responses to criticism or setbacks
- Areas of personal development
- Self-awareness about their own personality

9. Research Summary
- Data summary table organizing key personality insights
- List of primary personality traits with supporting evidence
- Identified patterns across different life domains
- Most reliable sources for personality insights

### Research Guidelines
- Focus on direct quotes and firsthand accounts where possible
- Note consistency and inconsistency in behaviors across contexts
- Distinguish between facts, public perception, and speculation
- Identify information gaps that need further research
- Document all sources meticulously for later reference".

Record Configuration := {
  report_structure : cfgval;
  number_of_queries : cfgval;
  max_search_depth : cfgval;
  planner_provider : cfgval;
  planner_model : cfgval;
  writer_provider : cfgval;
  writer_model : cfgval;
  search_api : cfgval
}.

(** [fields(cls)], all of them [init] fields, in declaration order. *)
Definition field_names : list string :=
  ["report_structure"; "number_of_queries"; "max_search_depth"; "planner_provider";
   "planner_model"; "writer_provider"; "writer_model"; "search_api"].

(** [str.upper] on one character of a field name (the names are ASCII). *)
Definition upper_char (c : ascii) : ascii :=
  let n := nat_of_ascii c in
  if (97 <=? n) && (n <=? 122) then ascii_of_nat (n - 32) else c.

Fixpoint upper (s : string) : string :=
  match s with
  | EmptyString => EmptyString
  | String c s' => String (upper_char c) (upper s')
  end.

(** [os.environ.get(f.name.upper(), configurable.get(f.name))] *)
Definition field_value (environ : gmap string string) (configurable : gmap string cfgval)
    (name : string) : cfgval :=
  match environ !! upper name with
  | Some v => Py (PyStr v)
  | None =>
      match configurable !! name with
      | Some v => v
      | None => Py PyNone
      end
  end.

(** [kwargs.get(name, dflt)] on the keyword arguments of the constructor. *)
Fixpoint kwarg (kwargs : list (string * cfgval)) (name : string) (dflt : cfgval) : cfgval :=
  match kwargs with
  | [] => dflt
  | (k, v) :: rest => if bool_decide (k = name) then v else kwarg rest name dflt
  end.

(** The constructor called with keyword arguments: a field takes its
    argument, or else its default. *)
Definition construct (kwargs : list (string * cfgval)) : Configuration :=
  {| report_structure := kwarg kwargs "report_structure" (Py (PyStr DEFAULT_REPORT_STRUCTURE));
     number_of_queries := kwarg kwargs "number_of_queries" (Py (PyInt 2));
     max_search_depth := kwarg kwargs "max_search_depth" (Py (PyInt 2));
     planner_provider := kwarg kwargs "planner_provider" (Planner PLANNER_OPENAI);
     planner_model := kwarg kwargs "planner_model" (Py (PyStr "gpt-4o-mini"));
     writer_provider := kwarg kwargs "writer_provider" (Writer WRITER_OPENAI);
     writer_model := kwarg kwargs "writer_model" (Py (PyStr "gpt-4o-mini"));
     search_api := kwarg kwargs "search_api" (Search TAVILY) |}.

(** A [RunnableConfig]: a dictionary whose entries, ["configurable"] among
    them, are dictionaries. [environ] is [os.environ]. *)
Definition from_runnable_config (environ : gmap string string)
    (config : option (gmap string (gmap string cfgval))) : Configuration :=
  let configurable :=
    match config with
    | Some c =>
        match c !! "configurable" with
        | Some d => d
        | None => ∅
        end
    | None => ∅
    end in
  let values := map (fun name => (name, field_value environ configurable name)) field_names in
  construct (filter (fun kv => cfg_truthy (snd kv)) values).

(** [getattr(c, name)] *)
Definition getattr (c : Configuration) (name : string) : option cfgval :=
  if bool_decide (name = "report_structure") then Some (report_structure c)
  else if bool_decide (name = "number_of_queries") then Some (number_of_queries c)
  else if bool_decide (name = "max_search_depth") then Some (max_search_depth c)
  else if bool_decide (name = "planner_provider") then Some (planner_provider c)
  else if bool_decide (name = "planner_model") then Some (planner_model c)
  else if bool_decide (name = "writer_provider") then Some (writer_provider c)
  else if bool_decide (name = "writer_model") then Some (writer_model c)
  else if bool_decide (name = "search_api") then Some (search_api c)
  else None.

(** The configuration with every field at its default: [Configuration()]. *)
Definition defaults : Configuration := construct [].

End Configuration.

(** ** The text of a formatted search result *)

(** The three lines that every version of [format_search_results] writes
    for a result, with the excerpt of its content. *)
Definition block_text (res : Dict) : string :=
  "Title: " +:+ fmt (dict_get res "title" (Some "No title")) +:+ nl
  +:+ "URL: " +:+ fmt (dict_get res "url" (Some "No URL")) +:+ nl
  +:+ "Content (excerpt): " +:+ excerpt res +:+ "..." +:+ nl.

(** The block of createPersonalityBlog.py for the result at index [i]. *)
Definition numbered_block_text (i : nat) (res : Dict) : string :=
  "RESULT " +:+ fmt_nat (i + 1) +:+ ":" +:+ nl +:+ block_text res.

(** ['content'] is present in the result and is [None]. *)
Definition content_is_none (res : Dict) : bool :=
  match res !! "content" with
  | Some None => true
  | _ => false
  end.

(** ** Shapes of runs *)




(** ** Sample environments and configurations *)

Module SampleConfig.
Import Configuration.

(** [NUMBER_OF_QUERIES=5] and an empty [PLANNER_MODEL] in the environment. *)
Definition environ : gmap string string :=
  {[ "NUMBER_OF_QUERIES" := "5"; "PLANNER_MODEL" := "" ]}.

(** A configuration that sets a search depth of 0, a planner model, a
    number of queries and a key that is no field. *)
Definition configurable : gmap string cfgval :=
  {[ "max_search_depth" := Py (PyInt 0);
     "planner_model" := Py (PyStr "o3-mini");
     "number_of_queries" := Py (PyInt 7);
     "writer_model" := Py (PyStr "claude");
     "thread_id" := Py (PyStr "t1") ]}.

Definition config : gmap string (gmap string cfgval) :=
  {[ "configurable" := configurable ]}.
End SampleConfig.

(* ===================================================================== *)
(** * Properties *)
(* ===================================================================== *)

(** ** Text helpers *)

Example strip_lower_ex : lower (strip ("  ApProVe " +:+ nl)) = "approve".
Proof. reflexivity. Qed.

Lemma substring_prefix_length (n : nat) (s : string) :
  String.length (String.substring 0 n s) <= n.
Proof.
  revert s. induction n as [|n IH]; intros [|c s]; simpl; try lia.
  specialize (IH s). lia.
Qed.

(** ** format_search_results *)

Lemma excerpt_length (res : Dict) : String.length (excerpt res) <= 500.
Proof.
  unfold excerpt. destruct (dict_get1 res "content").
  - apply substring_prefix_length.
  - simpl. lia.
Qed.

Lemma guarded_preview (res : Dict) :
  (if truthy (dict_get1 res "content")
   then slice_to 500 (dict_get res "content" (Some ""))
   else Ok "") = Ok (excerpt res).
Proof.
  unfold excerpt, dict_get1, dict_get.
  destruct (res !! "content") as [[s|]|]; simpl; try reflexivity.
  destruct s; reflexivity.
Qed.

Lemma personality_format_block_total (i : nat) (res : Dict) :
  CreatePersonalityBlog.format_block i res =
  Ok ("RESULT " +:+ fmt_nat (i + 1) +:+ ":" +:+ nl
      +:+ "Title: " +:+ fmt (dict_get res "title" (Some "No title")) +:+ nl
      +:+ "URL: " +:+ fmt (dict_get res "url" (Some "No URL")) +:+ nl
      +:+ "Content (excerpt): " +:+ excerpt res +:+ "..." +:+ nl).
Proof.
  unfold CreatePersonalityBlog.format_block. rewrite guarded_preview. reflexivity.
Qed.

Lemma personality_format_blocks_total (l : list Dict) (i : nat) :
  exists blocks,
    CreatePersonalityBlog.format_blocks i l = Ok blocks /\ length blocks = length l.
Proof.
  revert i. induction l as [|r l IH]; intros i; simpl.
  - exists []. split; reflexivity.
  - rewrite personality_format_block_total. simpl.
    destruct (IH (S i)) as [bs [-> Hlen]]. simpl.
    eexists. split; [reflexivity|]. simpl. lia.
Qed.

(** The guarded version in createPersonalityBlog.py never raises. *)
Lemma personality_format_total (l : list Dict) :
  exists text, CreatePersonalityBlog.format_search_results l = Ok text.
Proof.
  destruct l as [|r l]; [eexists; reflexivity|].
  unfold CreatePersonalityBlog.format_search_results.
  destruct (personality_format_blocks_total (r :: l) 0) as [bs [-> _]].
  eexists; reflexivity.
Qed.

Lemma people_format_block_total (res : Dict) :
  UpdatePeopleBlogs.format_block res =
  Ok ("Title: " +:+ fmt (dict_get res "title" (Some "No title")) +:+ nl
      +:+ "URL: " +:+ fmt (dict_get res "url" (Some "No URL")) +:+ nl
      +:+ "Content (excerpt): " +:+ excerpt res +:+ "..." +:+ nl).
Proof.
  unfold UpdatePeopleBlogs.format_block. rewrite guarded_preview. reflexivity.
Qed.

Lemma people_format_blocks_total (l : list Dict) :
  exists blocks,
    UpdatePeopleBlogs.format_blocks l = Ok blocks /\ length blocks = length l.
Proof.
  induction l as [|r l IH]; simpl.
  - exists []. split; reflexivity.
  - rewrite people_format_block_total. simpl.
    destruct IH as [bs [-> Hlen]]. simpl.
    eexists. split; [reflexivity|]. simpl. lia.
Qed.

(** The guarded version in updatePeopleBlogs.py never raises. *)
Lemma people_format_total (l : list Dict) :
  exists text, UpdatePeopleBlogs.format_search_results l = Ok text.
Proof.
  destruct l as [|r l]; [eexists; reflexivity|].
  unfold UpdatePeopleBlogs.format_search_results.
  destruct (people_format_blocks_total (r :: l)) as [bs [-> _]].
  eexists; reflexivity.
Qed.

Example people_format_null_content :
  is_ok (UpdatePeopleBlogs.format_search_results [Sample.null_content; Sample.bare_result])
  = true.
Proof. vm_compute. reflexivity. Qed.

(** C10: [format_search_results] of updateBlogGraph.py raises on a result
    whose ['content'] is [None]: the slice [[:500]] is applied to [None],
    where the versions in the two other modules test the value first and
    return a text. *)
Theorem C10_format_search_results_none_content_raises :
  UpdateBlogGraph.format_search_results [Sample.null_content]
  = Raise (Exn "TypeError" "'NoneType' object is not subscriptable")
  /\ is_ok (UpdatePeopleBlogs.format_search_results [Sample.null_content]) = true
  /\ is_ok (CreatePersonalityBlog.format_search_results [Sample.null_content]) = true.
Proof. repeat split; vm_compute; reflexivity. Qed.

(** ** The router of createPersonalityBlog.py *)

Lemma check_outline_approval_label (s : CreatePersonalityBlog.PersonalityBlogState) :
  fst (CreatePersonalityBlog.check_outline_approval s)
  = if CreatePersonalityBlog.outline_approved s then "approved" else "not_approved".
Proof.
  unfold CreatePersonalityBlog.check_outline_approval.
  destruct (CreatePersonalityBlog.outline_approved s); reflexivity.
Qed.

(** C2: for every state the router [check_outline_approval] returns a label
    of the declared set of the conditional edges of
    [create_content_outline], "approved" exactly when [outline_approved]
    holds and "not_approved" otherwise, so that resolving the next stage
    never ends in a RouterContractViolation. *)
Theorem C2_router_label_in_declared_set :
  forall query_chain tavily_search research_chain outline_chain blog_chain
         (s : CreatePersonalityBlog.PersonalityBlogState),
    let label := fst (CreatePersonalityBlog.check_outline_approval s) in
    label ∈ map fst (br_mapping CreatePersonalityBlog.approval_branch)
    /\ (label = "approved" <-> CreatePersonalityBlog.outline_approved s = true)
    /\ (label = "not_approved" <-> CreatePersonalityBlog.outline_approved s = false)
    /\ exists target,
         next_stage (CreatePersonalityBlog.graph query_chain tavily_search
                       research_chain outline_chain blog_chain)
                    "create_content_outline" s = Ok target
         /\ assoc label (br_mapping CreatePersonalityBlog.approval_branch) = Some target.
Proof.
  intros qc ts rc oc bc s label. subst label.
  rewrite check_outline_approval_label.
  unfold next_stage, route; simpl.
  rewrite check_outline_approval_label.
  destruct (CreatePersonalityBlog.outline_approved s); simpl.
  - split; [set_solver|]. split; [tauto|]. split; [split; discriminate|].
    eexists; split; reflexivity.
  - split; [set_solver|]. split; [split; discriminate|]. split; [tauto|].
    eexists; split; reflexivity.
Qed.

(** C7, as stated, fails: on a state whose outline is approved the router
    rewrites [status]. *)
Lemma C7_router_writes_status :
  ~ (forall s : CreatePersonalityBlog.PersonalityBlogState,
       snd (CreatePersonalityBlog.check_outline_approval s) = s).
Proof.
  intros H. specialize (H Sample.Personality.s_approved).
  apply (f_equal CreatePersonalityBlog.status) in H. vm_compute in H. discriminate.
Qed.

(** C7, amended: [check_outline_approval] never writes [outline_approved]
    and leaves every field other than [status] as it was; [status] becomes
    OUTLINE_APPROVED when the outline is approved, and the whole state is
    unchanged when it is not. *)
Theorem C7_router_frame :
  forall s : CreatePersonalityBlog.PersonalityBlogState,
    let s' := snd (CreatePersonalityBlog.check_outline_approval s) in
    CreatePersonalityBlog.person s' = CreatePersonalityBlog.person s
    /\ CreatePersonalityBlog.enneagram_type s' = CreatePersonalityBlog.enneagram_type s
    /\ CreatePersonalityBlog.search_queries s' = CreatePersonalityBlog.search_queries s
    /\ CreatePersonalityBlog.search_results s' = CreatePersonalityBlog.search_results s
    /\ CreatePersonalityBlog.person_research s' = CreatePersonalityBlog.person_research s
    /\ CreatePersonalityBlog.enneagram_research s'
       = CreatePersonalityBlog.enneagram_research s
    /\ CreatePersonalityBlog.content_outline s' = CreatePersonalityBlog.content_outline s
    /\ CreatePersonalityBlog.final_blog s' = CreatePersonalityBlog.final_blog s
    /\ CreatePersonalityBlog.outline_approved s' = CreatePersonalityBlog.outline_approved s
    /\ CreatePersonalityBlog.status s'
       = (if CreatePersonalityBlog.outline_approved s
          then CreatePersonalityBlog.OUTLINE_APPROVED
          else CreatePersonalityBlog.status s)
    /\ (CreatePersonalityBlog.outline_approved s = false -> s' = s).
Proof.
  intros s. unfold CreatePersonalityBlog.check_outline_approval.
  destruct (CreatePersonalityBlog.outline_approved s) eqn:E; simpl;
    rewrite ?E; repeat split; try reflexivity; discriminate.
Qed.

Lemma C7_router_frame_witness :
  snd (CreatePersonalityBlog.check_outline_approval Sample.Personality.s0)
  = Sample.Personality.s0.
Proof.
  apply (C7_router_frame Sample.Personality.s0). reflexivity.
Defined.

(** ** update_and_approve_outline *)

(** C8: applying [update_and_approve_outline] twice with the same outline
    gives the state that one application gives; in it [content_outline] is
    the given outline (the original one when none is given),
    [outline_approved] is true and every other field is that of [s]. *)
Theorem C8_update_and_approve_idempotent :
  forall (s : CreatePersonalityBlog.PersonalityBlogState) (u : option string),
    let once := CreatePersonalityBlog.update_and_approve_outline s u in
    CreatePersonalityBlog.update_and_approve_outline once u = once
    /\ CreatePersonalityBlog.content_outline once
       = match u with
         | Some text => Some text
         | None => CreatePersonalityBlog.content_outline s
         end
    /\ CreatePersonalityBlog.outline_approved once = true
    /\ CreatePersonalityBlog.person once = CreatePersonalityBlog.person s
    /\ CreatePersonalityBlog.enneagram_type once = CreatePersonalityBlog.enneagram_type s
    /\ CreatePersonalityBlog.status once = CreatePersonalityBlog.status s
    /\ CreatePersonalityBlog.search_queries once = CreatePersonalityBlog.search_queries s
    /\ CreatePersonalityBlog.search_results once = CreatePersonalityBlog.search_results s
    /\ CreatePersonalityBlog.person_research once = CreatePersonalityBlog.person_research s
    /\ CreatePersonalityBlog.enneagram_research once
       = CreatePersonalityBlog.enneagram_research s
    /\ CreatePersonalityBlog.final_blog once = CreatePersonalityBlog.final_blog s.
Proof.
  intros s [text|]; cbv zeta; unfold CreatePersonalityBlog.update_and_approve_outline;
    simpl; repeat split; reflexivity.
Qed.

(** ** fetch_blog_content of updatePeopleBlogs.py *)

(** C6: [fetch_blog_content] of updatePeopleBlogs.py always returns a
    state. When loading raises [e], [current_content] is "Error loading
    blog: " followed by the text of [e]; when loading yields no document or
    a first page without text, it is "No content could be loaded from the
    blog URL."; otherwise it is the content of the first page. In each case
    it is a text, and no other field changes. *)
Theorem C6_fetch_blog_content_absorbs_errors :
  forall (load_documents : string -> result (list Document))
         (s : UpdatePeopleBlogs.BlogUpdateState),
    let s' := UpdatePeopleBlogs.fetch_blog_content load_documents s in
    (forall e, load_documents (UpdatePeopleBlogs.blog_url s) = Raise e ->
       UpdatePeopleBlogs.current_content s' = Some ("Error loading blog: " +:+ exn_text e))
    /\ (load_documents (UpdatePeopleBlogs.blog_url s) = Ok [] ->
        UpdatePeopleBlogs.current_content s'
        = Some "No content could be loaded from the blog URL.")
    /\ (forall doc rest,
          load_documents (UpdatePeopleBlogs.blog_url s) = Ok (doc :: rest) ->
          truthy (page_content doc) = false ->
          UpdatePeopleBlogs.current_content s'
          = Some "No content could be loaded from the blog URL.")
    /\ (forall doc rest,
          load_documents (UpdatePeopleBlogs.blog_url s) = Ok (doc :: rest) ->
          truthy (page_content doc) = true ->
          UpdatePeopleBlogs.current_content s' = page_content doc)
    /\ (exists text, UpdatePeopleBlogs.current_content s' = Some text)
    /\ s' = UpdatePeopleBlogs.set_current_content s (UpdatePeopleBlogs.current_content s').
Proof.
  intros load s s'. subst s'.
  unfold UpdatePeopleBlogs.fetch_blog_content, UpdatePeopleBlogs.fetch_body, try_except.
  destruct (load (UpdatePeopleBlogs.blog_url s)) as [[|doc rest]|e] eqn:E; simpl.
  - repeat split; try discriminate; eauto.
  - destruct (truthy (page_content doc)) eqn:T; simpl.
    + split; [discriminate|]. split; [discriminate|].
      split; [intros d r [= <- <-] HT; congruence|].
      split; [intros d r [= <- <-] HT; reflexivity|].
      split; [|reflexivity].
      destruct (page_content doc) as [text|]; [eauto | discriminate].
    + split; [discriminate|]. split; [discriminate|].
      split; [reflexivity|].
      split; [intros d r [= <- <-] HT; congruence|].
      split; [eauto | reflexivity].
  - split; [intros e' [= <-]; reflexivity|].
    repeat split; try discriminate; eauto.
Qed.

Lemma C6_fetch_blog_content_witness :
  UpdatePeopleBlogs.current_content
    (UpdatePeopleBlogs.fetch_blog_content Sample.load_fails Sample.People.s0)
  = Some "Error loading blog: no route"
  /\ UpdatePeopleBlogs.current_content
       (UpdatePeopleBlogs.fetch_blog_content Sample.load_empty Sample.People.s0)
     = Some "No content could be loaded from the blog URL."
  /\ UpdatePeopleBlogs.current_content
       (UpdatePeopleBlogs.fetch_blog_content Sample.load_page Sample.People.s0)
     = Some "old post".
Proof.
  pose proof (C6_fetch_blog_content_absorbs_errors Sample.load_fails Sample.People.s0)
    as (Hraise & _).
  pose proof (C6_fetch_blog_content_absorbs_errors Sample.load_empty Sample.People.s0)
    as (_ & Hempty & _).
  pose proof (C6_fetch_blog_content_absorbs_errors Sample.load_page Sample.People.s0)
    as (_ & _ & _ & Hpage & _).
  split; [|split].
  - apply (Hraise (Exn "ConnectionError" "no route")). reflexivity.
  - apply Hempty. reflexivity.
  - apply (Hpage {| page_content := Some "old post" |} []); reflexivity.
Defined.

(** ** human_feedback of updateBlogGraph.py *)

(** Entered without an external input, the stage suspends and surfaces the
    prompt. *)
Lemma human_feedback_suspends (s : UpdateBlogGraph.BlogUpdateState) :
  UpdateBlogGraph.human_feedback s None
  = Ok (SuspendRequest
          (UpdateBlogGraph.feedback_prompt
             (or_else (UpdateBlogGraph.proposed_outline s) "No outline was generated."))).
Proof. reflexivity. Qed.

(** C1, as stated, fails: with an empty proposed outline an approval records
    the placeholder text and not the current (empty) outline. *)
Lemma C1_empty_outline_counterexample :
  ~ (forall (s : UpdateBlogGraph.BlogUpdateState) (f : string),
       lower (strip f) = "approve" ->
       UpdateBlogGraph.human_feedback s (Some (PyStr f))
       = Ok (Command "generate_new_content"
               [UpdateBlogGraph.Set_approved_outline
                  (match UpdateBlogGraph.proposed_outline s with
                   | Some p => p
                   | None => "No outline was generated."
                   end)])).
Proof.
  intros H. specialize (H Sample.Blog.s_empty_outline "approve" eq_refl).
  vm_compute in H. discriminate.
Qed.

(** C1, amended: re-entered with an external input, [human_feedback]
    returns a Command. For a text that reads "approve" once stripped and
    lower-cased, the Command goes to [generate_new_content] and sets
    [approved_outline] to the proposed outline, or to "No outline was
    generated." when the proposed outline is [None] or empty. For any other
    text the Command goes to [create_outline] and sets [proposed_outline] to
    that text; for an input that is not a text it sets it to the empty
    text. *)
Theorem C1_human_feedback_returns_command :
  forall (s : UpdateBlogGraph.BlogUpdateState) (input : pyval),
    let shown :=
      match UpdateBlogGraph.proposed_outline s with
      | Some "" => "No outline was generated."
      | Some p => p
      | None => "No outline was generated."
      end in
    (forall f, input = PyStr f -> lower (strip f) = "approve" ->
       UpdateBlogGraph.human_feedback s (Some input)
       = Ok (Command "generate_new_content" [UpdateBlogGraph.Set_approved_outline shown]))
    /\ (forall f, input = PyStr f -> lower (strip f) <> "approve" ->
          UpdateBlogGraph.human_feedback s (Some input)
          = Ok (Command "create_outline" [UpdateBlogGraph.Set_proposed_outline f]))
    /\ (is_str input = false ->
          UpdateBlogGraph.human_feedback s (Some input)
          = Ok (Command "create_outline" [UpdateBlogGraph.Set_proposed_outline ""]))
    /\ (exists goto update,
          UpdateBlogGraph.human_feedback s (Some input) = Ok (Command goto update)).
Proof.
  intros s input shown.
  assert (Hshown : or_else (UpdateBlogGraph.proposed_outline s)
                     "No outline was generated." = shown).
  { subst shown. unfold or_else.
    destruct (UpdateBlogGraph.proposed_outline s) as [[|c p]|]; reflexivity. }
  unfold UpdateBlogGraph.human_feedback, interrupt. rewrite Hshown.
  split; [|split; [|split]].
  - intros f -> Hf. unfold UpdateBlogGraph.approves.
    rewrite Hf. reflexivity.
  - intros f -> Hf. unfold UpdateBlogGraph.approves.
    destruct (String.eqb_spec (lower (strip f)) "approve") as [E|E];
      [contradiction | reflexivity].
  - intros Hi. destruct input; try discriminate; reflexivity.
  - destruct (UpdateBlogGraph.approves input); eauto.
Qed.

Lemma C1_human_feedback_witness :
  UpdateBlogGraph.human_feedback Sample.Blog.s_outline (Some (PyStr " Approve "))
  = Ok (Command "generate_new_content" [UpdateBlogGraph.Set_approved_outline "v1"])
  /\ UpdateBlogGraph.human_feedback Sample.Blog.s_outline (Some (PyStr "add section Y"))
     = Ok (Command "create_outline" [UpdateBlogGraph.Set_proposed_outline "add section Y"])
  /\ UpdateBlogGraph.human_feedback Sample.Blog.s_outline (Some PyNone)
     = Ok (Command "create_outline" [UpdateBlogGraph.Set_proposed_outline ""]).
Proof.
  pose proof (C1_human_feedback_returns_command Sample.Blog.s_outline (PyStr " Approve "))
    as (Hyes & _).
  pose proof (C1_human_feedback_returns_command Sample.Blog.s_outline
                (PyStr "add section Y")) as (_ & Hno & _).
  pose proof (C1_human_feedback_returns_command Sample.Blog.s_outline PyNone)
    as (_ & _ & Hother & _).
  split; [|split].
  - apply (Hyes " Approve "); reflexivity.
  - apply (Hno "add section Y"); [reflexivity | vm_compute; discriminate].
  - apply Hother. reflexivity.
Defined.

(** ** search_web *)

(** The results that the search service returns for a list of queries. *)
Ltac search_loop_gathers :=
  let qs := fresh "qs" in let rs := fresh "rs" in let H := fresh "H" in
  intros ? qs; induction qs as [|q qs IH]; intros acc rs H;
  inversion H as [|? r ? rs' Hq Hrest]; subst; simpl;
  [ rewrite app_nil_r; reflexivity
  | rewrite Hq; simpl;
    rewrite (IH _ _ Hrest); destruct r; simpl;
    rewrite <- ?app_assoc, ?app_nil_r; reflexivity ].

Lemma personality_search_loop_gathers :
  forall tavily queries acc responses,
    Forall2 (fun q r => tavily q = Ok r) queries responses ->
    CreatePersonalityBlog.search_loop tavily queries acc = Ok (acc ++ concat responses).
Proof. search_loop_gathers. Qed.

Lemma people_search_loop_gathers :
  forall tavily queries acc responses,
    Forall2 (fun q r => tavily q = Ok r) queries responses ->
    UpdatePeopleBlogs.search_loop tavily queries acc = Ok (acc ++ concat responses).
Proof. search_loop_gathers. Qed.

Lemma graph_search_loop_gathers :
  forall tavily queries acc responses,
    Forall2 (fun q r => tavily q = Ok r) queries responses ->
    UpdateBlogGraph.search_loop tavily queries acc = Ok (acc ++ concat responses).
Proof. search_loop_gathers. Qed.

Ltac search_loop_raises :=
  let qs := fresh "qs" in let rs := fresh "rs" in let H := fresh "H" in
  intros ? qs; induction qs as [|q0 qs IH]; intros q after acc rs e H Hq;
  inversion H as [|? r ? rs' Hq0 Hrest]; subst; simpl;
  [ rewrite Hq; reflexivity
  | rewrite Hq0; simpl; apply (IH _ _ _ _ _ Hrest Hq) ].

Lemma personality_search_loop_raises :
  forall tavily before q after acc responses e,
    Forall2 (fun q r => tavily q = Ok r) before responses ->
    tavily q = Raise e ->
    CreatePersonalityBlog.search_loop tavily (before ++ q :: after) acc = Raise e.
Proof. search_loop_raises. Qed.

Lemma people_search_loop_raises :
  forall tavily before q after acc responses e,
    Forall2 (fun q r => tavily q = Ok r) before responses ->
    tavily q = Raise e ->
    UpdatePeopleBlogs.search_loop tavily (before ++ q :: after) acc = Raise e.
Proof. search_loop_raises. Qed.

Lemma graph_search_loop_raises :
  forall tavily before q after acc responses e,
    Forall2 (fun q r => tavily q = Ok r) before responses ->
    tavily q = Raise e ->
    UpdateBlogGraph.search_loop tavily (before ++ q :: after) acc = Raise e.
Proof. search_loop_raises. Qed.

(** C4, as stated, fails: [search_web] run on a state that already holds a
    result leaves only the newly gathered results in [search_results]. *)
Lemma C4_prior_results_overwritten :
  ~ (forall tavily (s s' : CreatePersonalityBlog.PersonalityBlogState),
       CreatePersonalityBlog.search_results s <> [] ->
       CreatePersonalityBlog.search_web tavily s = Ok s' ->
       CreatePersonalityBlog.search_results s
         `prefix_of` CreatePersonalityBlog.search_results s')
  /\ ~ (forall tavily (s s' : UpdatePeopleBlogs.BlogUpdateState),
          UpdatePeopleBlogs.search_results s <> [] ->
          UpdatePeopleBlogs.search_web tavily s = Ok s' ->
          UpdatePeopleBlogs.search_results s
            `prefix_of` UpdatePeopleBlogs.search_results s').
Proof.
  split; intros H.
  - specialize (H Sample.search_one Sample.Personality.s_prior _
                  ltac:(discriminate) eq_refl).
    destruct H as [k Hk].
    apply (f_equal (fun l : list Dict => (l !! 0) ≫= (fun d => d !! "title"))) in Hk.
    vm_compute in Hk. discriminate.
  - specialize (H Sample.search_one Sample.People.s_prior _
                  ltac:(discriminate) eq_refl).
    destruct H as [k Hk].
    apply (f_equal (fun l : list Dict => (l !! 0) ≫= (fun d => d !! "title"))) in Hk.
    vm_compute in Hk. discriminate.
Qed.

(** C4, amended: [search_results] is a replace field for [search_web]. When
    the search service answers every query, the stage returns the state
    with [search_results] set to the answers joined in query order,
    whatever the field held before, and with every other field kept. *)
Theorem C4_search_web_replaces_results :
  forall (tavily : string -> result (list Dict)) (responses : list (list Dict)),
    (forall s : CreatePersonalityBlog.PersonalityBlogState,
       Forall2 (fun q r => tavily q = Ok r)
               (CreatePersonalityBlog.search_queries s) responses ->
       CreatePersonalityBlog.search_web tavily s
       = Ok (CreatePersonalityBlog.set_search_results s (concat responses)))
    /\ (forall s : UpdatePeopleBlogs.BlogUpdateState,
          Forall2 (fun q r => tavily q = Ok r)
                  (UpdatePeopleBlogs.search_queries s) responses ->
          UpdatePeopleBlogs.search_web tavily s
          = Ok (UpdatePeopleBlogs.set_search_results s (concat responses))).
Proof.
  intros tavily responses. split; intros s H.
  - unfold CreatePersonalityBlog.search_web.
    rewrite (personality_search_loop_gathers _ _ [] _ H). reflexivity.
  - unfold UpdatePeopleBlogs.search_web.
    rewrite (people_search_loop_gathers _ _ [] _ H). reflexivity.
Qed.

Lemma C4_search_web_witness :
  CreatePersonalityBlog.search_web Sample.search_one Sample.Personality.s_prior
  = Ok (CreatePersonalityBlog.set_search_results Sample.Personality.s_prior
          [Sample.other_result])
  /\ UpdatePeopleBlogs.search_web Sample.search_one Sample.People.s_prior
     = Ok (UpdatePeopleBlogs.set_search_results Sample.People.s_prior
             [Sample.other_result]).
Proof.
  pose proof (C4_search_web_replaces_results Sample.search_one [[Sample.other_result]])
    as [Hpersonality Hpeople].
  split.
  - apply (Hpersonality Sample.Personality.s_prior).
    repeat constructor.
  - apply (Hpeople Sample.People.s_prior).
    repeat constructor.
Defined.

(** C5, as stated, fails: with a search service that raises, [search_web]
    does not return a state. *)
Lemma C5_search_error_propagates :
  ~ (forall tavily (s : CreatePersonalityBlog.PersonalityBlogState),
       exists s', CreatePersonalityBlog.search_web tavily s = Ok s')
  /\ ~ (forall tavily (s : UpdatePeopleBlogs.BlogUpdateState),
          exists s', UpdatePeopleBlogs.search_web tavily s = Ok s').
Proof.
  split; intros H.
  - destruct (H Sample.search_down Sample.Personality.s_prior) as [s' Hs'].
    vm_compute in Hs'. discriminate.
  - destruct (H Sample.search_down Sample.People.s_prior) as [s' Hs'].
    vm_compute in Hs'. discriminate.
Qed.

Lemma answered_responses (tavily : string -> result (list Dict)) (queries : list string) :
  Forall (fun q => is_ok (tavily q) = true) queries ->
  exists responses, Forall2 (fun q r => tavily q = Ok r) queries responses.
Proof.
  induction 1 as [|q qs Hq _ [rs IH]].
  - exists []. constructor.
  - destruct (tavily q) as [r|e] eqn:E; [|discriminate].
    exists (r :: rs). constructor; assumption.
Qed.

(** C5, amended: [search_web] has no handler for an error of the search
    service. When the call raises [e] for a query and had answered the
    queries before it, [search_web] raises [e] itself and hands back no
    state; it returns a state when the service answers every query. *)
Theorem C5_search_web_raises_first_error :
  forall tavily : string -> result (list Dict),
    (forall (s : CreatePersonalityBlog.PersonalityBlogState) before q after responses e,
       CreatePersonalityBlog.search_queries s = before ++ q :: after ->
       Forall2 (fun q r => tavily q = Ok r) before responses ->
       tavily q = Raise e ->
       CreatePersonalityBlog.search_web tavily s = Raise e)
    /\ (forall (s : UpdatePeopleBlogs.BlogUpdateState) before q after responses e,
          UpdatePeopleBlogs.search_queries s = before ++ q :: after ->
          Forall2 (fun q r => tavily q = Ok r) before responses ->
          tavily q = Raise e ->
          UpdatePeopleBlogs.search_web tavily s = Raise e)
    /\ (forall s : CreatePersonalityBlog.PersonalityBlogState,
          Forall (fun q => is_ok (tavily q) = true) (CreatePersonalityBlog.search_queries s) ->
          is_ok (CreatePersonalityBlog.search_web tavily s) = true)
    /\ (forall s : UpdatePeopleBlogs.BlogUpdateState,
          Forall (fun q => is_ok (tavily q) = true) (UpdatePeopleBlogs.search_queries s) ->
          is_ok (UpdatePeopleBlogs.search_web tavily s) = true).
Proof.
  intros tavily. split; [|split; [|split]].
  - intros s before q after responses e Hs Hbefore Hq.
    unfold CreatePersonalityBlog.search_web. rewrite Hs.
    rewrite (personality_search_loop_raises _ _ _ after [] _ _ Hbefore Hq). reflexivity.
  - intros s before q after responses e Hs Hbefore Hq.
    unfold UpdatePeopleBlogs.search_web. rewrite Hs.
    rewrite (people_search_loop_raises _ _ _ after [] _ _ Hbefore Hq). reflexivity.
  - intros s Hall. destruct (answered_responses _ _ Hall) as [responses H].
    unfold CreatePersonalityBlog.search_web.
    rewrite (personality_search_loop_gathers _ _ [] _ H). reflexivity.
  - intros s Hall. destruct (answered_responses _ _ Hall) as [responses H].
    unfold UpdatePeopleBlogs.search_web.
    rewrite (people_search_loop_gathers _ _ [] _ H). reflexivity.
Qed.

Lemma C5_search_web_witness :
  UpdatePeopleBlogs.search_web Sample.search_flaky Sample.People.s_bad
  = Raise Sample.timeout_error
  /\ is_ok (CreatePersonalityBlog.search_web Sample.search_flaky
              Sample.Personality.s_prior) = true.
Proof.
  pose proof (C5_search_web_raises_first_error Sample.search_flaky)
    as (_ & Hraise & Hanswered & _).
  split.
  - apply (Hraise Sample.People.s_bad ["a"] "bad" ["c"] [[Sample.other_result]]).
    + reflexivity.
    + repeat constructor.
    + reflexivity.
  - apply Hanswered. repeat constructor.
Defined.

(** ** Graph validation *)

Lemma expand_includes (g : GraphDef) (R : gset string) : R ⊆ expand g R.
Proof. unfold expand. set_solver. Qed.

Lemma elem_of_expand (g : GraphDef) (R : gset string) (b : string) :
  b ∈ expand g R <-> b ∈ R \/ exists a, a ∈ R /\ b ∈ successors g a.
Proof.
  unfold expand. rewrite elem_of_union, elem_of_list_to_set, list_elem_of_In, in_flat_map.
  split; intros [H|H]; auto; right.
  - destruct H as [a [Ha Hb]]. exists a.
    rewrite <- list_elem_of_In, elem_of_elements in Ha.
    rewrite <- list_elem_of_In in Hb. auto.
  - destruct H as [a [Ha Hb]]. exists a.
    rewrite <- list_elem_of_In, elem_of_elements. rewrite <- list_elem_of_In. auto.
Qed.

Lemma reach_iter_includes (g : GraphDef) (k : nat) (R : gset string) :
  R ⊆ reach_iter g k R.
Proof.
  revert R. induction k as [|k IH]; intros R; simpl; [set_solver|].
  etransitivity; [apply expand_includes | apply IH].
Qed.

Lemma reach_iter_sound (g : GraphDef) (k : nat) (R : gset string) :
  (forall n, n ∈ R -> reachable g n) ->
  forall n, n ∈ reach_iter g k R -> reachable g n.
Proof.
  revert R. induction k as [|k IH]; intros R HR n Hn; simpl in Hn; [auto|].
  apply (IH (expand g R)); [|exact Hn].
  intros m Hm. apply elem_of_expand in Hm as [Hm | [a [Ha Hm]]]; [auto|].
  eapply reachable_step; eauto.
Qed.

Lemma reachable_set_sound (g : GraphDef) (n : string) :
  n ∈ reachable_set g -> reachable g n.
Proof.
  apply reach_iter_sound. intros m Hm.
  apply elem_of_singleton in Hm as ->. constructor.
Qed.

Lemma successors_in_universe (g : GraphDef) (a b : string) :
  b ∈ successors g a -> b ∈ universe g.
Proof.
  unfold successors, out_targets, universe. rewrite !elem_of_app.
  rewrite !elem_of_union, !elem_of_list_to_set.
  intros [[H|H]|H].
  - left; left; right. unfold edge_targets in H.
    rewrite list_elem_of_In, in_map_iff in H. destruct H as [e [<- He]].
    apply list_elem_of_In, in_map. apply list_elem_of_In in He.
    apply list_elem_of_filter in He as [_ He]. apply list_elem_of_In. exact He.
  - left; right. unfold branch_targets in H.
    rewrite list_elem_of_In, in_flat_map in H. destruct H as [br [Hbr Hb]].
    apply list_elem_of_In, in_flat_map. exists br. split; [exact Hbr|].
    destruct (bool_decide (br_source br = a)); [exact Hb | destruct Hb].
  - right. unfold command_targets in H.
    rewrite list_elem_of_In, in_flat_map in H. destruct H as [ce [Hce Hb]].
    apply list_elem_of_In, in_flat_map. exists ce. split; [exact Hce|].
    destruct (bool_decide (ce.1 = a)); [exact Hb | destruct Hb].
Qed.

Lemma expand_in_universe (g : GraphDef) (R : gset string) :
  R ⊆ universe g -> expand g R ⊆ universe g.
Proof.
  intros HR b Hb. apply elem_of_expand in Hb as [Hb | [a [_ Hb]]]; [auto|].
  eapply successors_in_universe; eauto.
Qed.

Lemma reach_iter_in_universe (g : GraphDef) (k : nat) (R : gset string) :
  R ⊆ universe g -> reach_iter g k R ⊆ universe g.
Proof.
  revert R. induction k as [|k IH]; intros R HR; simpl; [exact HR|].
  apply IH, expand_in_universe, HR.
Qed.

Lemma reach_iter_fixed (g : GraphDef) (k : nat) (R : gset string) :
  expand g R ⊆ R -> reach_iter g k R = R.
Proof.
  intros Hfix.
  assert (E : expand g R = R).
  { apply set_eq. intros x. split; [apply Hfix | apply expand_includes]. }
  induction k as [|k IH]; simpl; [reflexivity|]. rewrite E. exact IH.
Qed.

(** Each round either adds nothing, and the set is closed from then on, or
    adds a stage. *)
Lemma reach_iter_progress (g : GraphDef) (k : nat) (R : gset string) :
  expand g (reach_iter g k R) ⊆ reach_iter g k R
  \/ size R + k <= size (reach_iter g k R).
Proof.
  revert R. induction k as [|k IH]; intros R; simpl.
  - right. lia.
  - destruct (decide (expand g R ⊆ R)) as [Hfix|Hgrow].
    + left.
      assert (E : expand g R = R).
      { apply set_eq. intros x. split; [apply Hfix | apply expand_includes]. }
      rewrite E. rewrite (reach_iter_fixed g k R Hfix). exact Hfix.
    + destruct (IH (expand g R)) as [Hclosed|Hsize]; [left; exact Hclosed|].
      right.
      assert (size R < size (expand g R)).
      { apply subset_size. split; [apply expand_includes | exact Hgrow]. }
      lia.
Qed.

Lemma reachable_set_closed (g : GraphDef) :
  expand g (reachable_set g) ⊆ reachable_set g.
Proof.
  unfold reachable_set.
  destruct (reach_iter_progress g (size (universe g)) {[ START ]}) as [H|H]; [exact H|].
  exfalso.
  assert (Hin : reach_iter g (size (universe g)) {[ START ]} ⊆ universe g).
  { apply reach_iter_in_universe. unfold universe. set_solver. }
  apply subseteq_size in Hin. rewrite size_singleton in H. lia.
Qed.

Lemma reachable_set_complete (g : GraphDef) (n : string) :
  reachable g n -> n ∈ reachable_set g.
Proof.
  induction 1 as [|a b _ IH Hb].
  - apply reach_iter_includes. set_solver.
  - apply reachable_set_closed. apply elem_of_expand. right. eauto.
Qed.

Lemma edge_reachable_reachable (g : GraphDef) (n : string) :
  edge_reachable g n -> reachable g n.
Proof.
  induction 1 as [|a b _ IH Hb]; [constructor|].
  apply (reachable_step g a b IH). unfold successors. apply elem_of_app. left. exact Hb.
Qed.

Lemma validate_registered_has_edge (g : GraphDef) (n : string) :
  validate g = true -> n ∈ nodes g -> out_targets g n <> [].
Proof.
  unfold validate. rewrite !andb_true_iff. intros [_ Hall] Hn.
  rewrite forallb_forall in Hall. apply list_elem_of_In in Hn.
  specialize (Hall n Hn). apply negb_true_iff, bool_decide_eq_false in Hall. exact Hall.
Qed.

Lemma validate_start_has_edge (g : GraphDef) :
  validate g = true -> out_targets g START <> [].
Proof.
  unfold validate. rewrite !andb_true_iff. intros [[_ Hstart] _].
  apply negb_true_iff, bool_decide_eq_false in Hstart. exact Hstart.
Qed.

(** In a validated graph the target of a declared edge is END or a
    registered stage. *)
Lemma validate_target_registered (g : GraphDef) (a b : string) :
  validate g = true -> b ∈ out_targets g a -> b = END \/ b ∈ nodes g.
Proof.
  unfold validate. rewrite !andb_true_iff. intros [[[[_ Hedges] Hbranches] _] _] Hb.
  rewrite forallb_forall in Hedges. rewrite forallb_forall in Hbranches.
  assert (Htarget : is_target g b = true).
  { unfold out_targets in Hb. apply elem_of_app in Hb as [Hb|Hb].
    - unfold edge_targets in Hb.
      rewrite list_elem_of_In, in_map_iff in Hb. destruct Hb as [e [<- He]].
      apply list_elem_of_In, list_elem_of_filter in He as [_ He].
      apply list_elem_of_In in He. specialize (Hedges e He).
      apply andb_true_iff in Hedges as [_ Ht]. exact Ht.
    - unfold branch_targets in Hb.
      rewrite list_elem_of_In, in_flat_map in Hb. destruct Hb as [br [Hbr Hb]].
      specialize (Hbranches br Hbr).
      rewrite !andb_true_iff in Hbranches. destruct Hbranches as [[_ Hmap] _].
      rewrite forallb_forall in Hmap.
      destruct (bool_decide (br_source br = a)); [|destruct Hb].
      apply in_map_iff in Hb as [lt [<- Hlt]]. exact (Hmap lt Hlt). }
  unfold is_target, registered in Htarget.
  apply orb_true_iff in Htarget as [H|H]; apply bool_decide_eq_true in H; auto.
Qed.

Lemma validate_reachable_has_edge (g : GraphDef) (n : string) :
  validate g = true -> edge_reachable g n -> n <> END -> out_targets g n <> [].
Proof.
  intros Hv Hn Hend. destruct Hn as [|a b _ Hb].
  - apply validate_start_has_edge, Hv.
  - destruct (validate_target_registered g a b Hv Hb) as [->|Hreg]; [contradiction|].
    apply validate_registered_has_edge; assumption.
Qed.

(** Of the three builders of the source, this check accepts the one of
    updatePeopleBlogs.py. It refuses the two others, which the source hands
    to the graph library all the same: [check_outline_approval] is
    registered without an edge in createPersonalityBlog.py, and
    [human_feedback] has no edge in updateBlogGraph.py, where a Command
    names the next stage. *)
Lemma source_builders_under_validate :
  validate CreatePersonalityBlog.builder = false
  /\ validate UpdatePeopleBlogs.builder = true
  /\ validate UpdateBlogGraph.builder = false.
Proof. repeat split; vm_compute; reflexivity. Qed.

Lemma human_feedback_edge_reachable :
  edge_reachable UpdateBlogGraph.builder "human_feedback".
Proof.
  assert (Hmove : forall a b, (a, b) ∈ edges UpdateBlogGraph.builder ->
            edge_reachable UpdateBlogGraph.builder a ->
            edge_reachable UpdateBlogGraph.builder b).
  { intros a b Hab Ha. apply (edge_reachable_step _ a b Ha).
    unfold out_targets, edge_targets. apply elem_of_app. left.
    apply list_elem_of_In, in_map_iff. exists (a, b). split; [reflexivity|].
    apply list_elem_of_In, list_elem_of_filter. split; [|exact Hab].
    simpl. rewrite bool_decide_eq_true_2 by reflexivity. exact I. }
  apply (Hmove "create_outline"); [simpl; set_solver|].
  apply (Hmove "search_web"); [simpl; set_solver|].
  apply (Hmove "generate_search_queries"); [simpl; set_solver|].
  apply (Hmove "analyze_content"); [simpl; set_solver|].
  apply (Hmove "fetch_blog_content"); [simpl; set_solver|].
  apply (Hmove START); [simpl; set_solver|].
  constructor.
Qed.

(** C3: in every graph that passes validation, every stage other than END
    that can be reached from START has at least one declared outgoing edge;
    a graph with a reachable stage other than END that has no outgoing edge
    is rejected by validation. *)
Theorem C3_validated_reachable_stage_has_edge :
  forall g : GraphDef,
    (validate g = true ->
     forall n, edge_reachable g n -> n <> END -> out_targets g n <> [])
    /\ (forall n, edge_reachable g n -> n <> END -> out_targets g n = [] ->
          validate g = false).
Proof.
  intros g. split.
  - intros Hv n Hn Hend. apply validate_reachable_has_edge; assumption.
  - intros n Hn Hend Hout.
    destruct (validate g) eqn:Hv; [exfalso | reflexivity].
    apply (validate_reachable_has_edge g n Hv Hn Hend). exact Hout.
Qed.

Lemma C3_validated_reachable_stage_witness :
  out_targets UpdatePeopleBlogs.builder START <> []
  /\ validate UpdateBlogGraph.builder = false.
Proof.
  split.
  - apply (proj1 (C3_validated_reachable_stage_has_edge UpdatePeopleBlogs.builder)).
    + vm_compute. reflexivity.
    + constructor.
    + discriminate.
  - apply (proj2 (C3_validated_reachable_stage_has_edge UpdateBlogGraph.builder)
             "human_feedback").
    + exact human_feedback_edge_reachable.
    + discriminate.
    + reflexivity.
Defined.

(** ** The executor: determinism and routing *)

Section ExecutorFacts.
Context {St U : Type}.
Variable g : Graph St U.










(** A run that ends is found with enough fuel. *)
Lemma drive_fuel_complete (n : string) (s : St) (resume : option pyval)
      (visited : list string) (r : RunResult St) :
  drive g n s resume visited r ->
  drive_fuel g (length visited) n s resume = Some (visited, r).
Proof.
  induction 1 as [n s i r Hstop | n s i n' s' visited r Hnext Hrest IH]; simpl.
  - rewrite Hstop. reflexivity.
  - rewrite Hnext, IH. reflexivity.
Qed.



End ExecutorFacts.

(** The run of the sample personality graph stops at END after the outline,
    which is not approved; the run of the sample update graph suspends at
    [human_feedback], and resumed with an approval it reaches END. *)
Example personality_run_visits :
  fst <$> start_fuel Sample.Personality.graph_one 10 Sample.Personality.s0
  = Some ["generate_search_queries"; "search_web"; "organize_research";
          "create_content_outline"; END].
Proof. vm_compute. reflexivity. Qed.

Example blog_run_suspends :
  fst <$> start_fuel Sample.Blog.graph_one 10 Sample.Blog.s0
  = Some ["fetch_blog_content"; "analyze_content"; "generate_search_queries";
          "search_web"; "create_outline"; "human_feedback"].
Proof. vm_compute. reflexivity. Qed.

Example blog_resume_approve_visits :
  fst <$> drive_fuel Sample.Blog.graph_one 10 "human_feedback" Sample.Blog.s_outline
            (Some (PyStr "approve"))
  = Some ["human_feedback"; "generate_new_content"; "update_blog"; END].
Proof. vm_compute. reflexivity. Qed.

Example blog_resume_revise_loops_back :
  fst <$> drive_fuel Sample.Blog.graph_one 10 "human_feedback" Sample.Blog.s_outline
            (Some (PyStr "revise: add section Y"))
  = Some ["human_feedback"; "create_outline"; "human_feedback"].
Proof. vm_compute. reflexivity. Qed.

(* ===================================================================== *)
(** * Further properties of the source *)
(* ===================================================================== *)

(** ** Formatting of search results *)

Lemma substring_prefix_exact (n : nat) (s : string) :
  String.length (String.substring 0 n s) = Nat.min n (String.length s)
  /\ (String.length s <= n -> String.substring 0 n s = s).
Proof.
  revert s. induction n as [|n IH]; intros [|c s]; simpl; try (split; [reflexivity|]).
  - reflexivity.
  - intros H. lia.
  - reflexivity.
  - destruct (IH s) as [Hlen Hid]. split; [lia|].
    intros H. rewrite Hid; [reflexivity | lia].
Qed.

Lemma personality_format_blocks_imap (l : list Dict) (i : nat) :
  CreatePersonalityBlog.format_blocks i l
  = Ok (imap (fun j => numbered_block_text (i + j)) l).
Proof.
  revert i. induction l as [|r l IH]; intros i; simpl; [reflexivity|].
  rewrite personality_format_block_total. simpl. rewrite IH. simpl.
  rewrite Nat.add_0_r. do 2 f_equal.
  apply imap_ext. intros j x _. simpl. f_equal. lia.
Qed.

(** X1: [format_search_results] of createPersonalityBlog.py never raises.
    For a non-empty list it returns the blocks of the results in input
    order, numbered from 1 and separated by a blank line, whatever keys
    the results lack and whether or not their content is [None]. *)
Theorem X1_personality_format_numbered_blocks :
  forall l : list Dict,
    CreatePersonalityBlog.format_search_results l
    = Ok (match l with
          | [] => "No search results found."
          | _ => join (nl +:+ nl) (imap numbered_block_text l)
          end).
Proof.
  intros [|r l]; [reflexivity|].
  unfold CreatePersonalityBlog.format_search_results.
  rewrite personality_format_blocks_imap. reflexivity.
Qed.

Lemma people_format_blocks_map (l : list Dict) :
  UpdatePeopleBlogs.format_blocks l = Ok (map block_text l).
Proof.
  induction l as [|r l IH]; simpl; [reflexivity|].
  rewrite people_format_block_total. simpl. rewrite IH. reflexivity.
Qed.

(** X2: [format_search_results] of updatePeopleBlogs.py never raises. For a
    non-empty list it returns one block per result, in input order, joined
    by a newline. *)
Theorem X2_people_format_blocks_in_order :
  forall l : list Dict,
    UpdatePeopleBlogs.format_search_results l
    = Ok (match l with
          | [] => "No search results found."
          | _ => join nl (map block_text l)
          end).
Proof.
  intros [|r l]; [reflexivity|].
  unfold UpdatePeopleBlogs.format_search_results.
  rewrite people_format_blocks_map. reflexivity.
Qed.

Lemma graph_format_block_cases (res : Dict) :
  UpdateBlogGraph.format_block res
  = if content_is_none res
    then Raise (Exn "TypeError" "'NoneType' object is not subscriptable")
    else Ok (block_text res).
Proof.
  unfold UpdateBlogGraph.format_block, content_is_none, block_text, excerpt,
    dict_get1, dict_get.
  destruct (res !! "content") as [[s|]|]; reflexivity.
Qed.

Lemma graph_format_blocks_cases (l : list Dict) :
  UpdateBlogGraph.format_blocks l
  = if existsb content_is_none l
    then Raise (Exn "TypeError" "'NoneType' object is not subscriptable")
    else Ok (map block_text l).
Proof.
  induction l as [|r l IH]; simpl; [reflexivity|].
  rewrite graph_format_block_cases.
  destruct (content_is_none r); simpl; [reflexivity|].
  rewrite IH. destruct (existsb content_is_none l); reflexivity.
Qed.

(** X3: [format_search_results] of updateBlogGraph.py raises a TypeError
    exactly when some result of the list has ['content'] present and
    [None]; on every other list, results without a ['content'] key
    included, it returns the very text that the version of
    updatePeopleBlogs.py returns. *)
Theorem X3_graph_format_raises_iff_none_content :
  forall l : list Dict,
    UpdateBlogGraph.format_search_results l
    = if existsb content_is_none l
      then Raise (Exn "TypeError" "'NoneType' object is not subscriptable")
      else UpdatePeopleBlogs.format_search_results l.
Proof.
  intros [|r l]; [reflexivity|].
  unfold UpdateBlogGraph.format_search_results, UpdatePeopleBlogs.format_search_results.
  rewrite graph_format_blocks_cases, people_format_blocks_map.
  destruct (existsb content_is_none (r :: l)); reflexivity.
Qed.

(** X4: the excerpt that the blocks show is the content itself when the
    content has at most 500 characters, and otherwise its first 500
    characters exactly; a result whose content is missing, [None] or empty
    gets an empty excerpt in the guarded versions. *)
Theorem X4_excerpt_is_500_character_prefix :
  forall (res : Dict),
    (forall c, res !! "content" = Some (Some c) ->
       UpdatePeopleBlogs.format_block res = Ok (block_text res)
       /\ excerpt res = String.substring 0 500 c
       /\ String.length (excerpt res) = Nat.min 500 (String.length c)
       /\ String.prefix (excerpt res) c = true
       /\ (String.length c <= 500 -> excerpt res = c))
    /\ (res !! "content" = None \/ res !! "content" = Some None ->
        UpdatePeopleBlogs.format_block res = Ok (block_text res) /\ excerpt res = "").
Proof.
  intros res. split.
  - intros c Hc.
    assert (E : excerpt res = String.substring 0 500 c).
    { unfold excerpt, dict_get1, dict_get. rewrite Hc. reflexivity. }
    split; [apply people_format_block_total|].
    split; [exact E|]. rewrite E.
    destruct (substring_prefix_exact 500 c) as [Hlen Hid].
    split; [exact Hlen|]. split; [|exact Hid].
    generalize 500. clear. intros n. revert c.
    induction n as [|n IH]; intros [|a c]; simpl; try reflexivity.
    rewrite IH. destruct (ascii_dec a a); [reflexivity | contradiction].
  - intros H. split; [apply people_format_block_total|].
    unfold excerpt, dict_get1, dict_get. destruct H as [-> | ->]; reflexivity.
Qed.

Lemma X4_excerpt_witness :
  excerpt Sample.full_result = "text" /\ excerpt Sample.null_content = "".
Proof.
  pose proof (X4_excerpt_is_500_character_prefix Sample.full_result) as [Hsome _].
  pose proof (X4_excerpt_is_500_character_prefix Sample.null_content) as [_ Hnone].
  split.
  - destruct (Hsome "text" eq_refl) as (_ & _ & _ & _ & Hid).
    apply Hid. simpl. lia.
  - apply Hnone. right. reflexivity.
Defined.

(** ** search_web, once more *)

(** X5: [search_web] of createPersonalityBlog.py and of updatePeopleBlogs.py
    reads nothing but the queries: the state it returns is a fixed point,
    so running the stage again on it, with the same search service, returns
    it unchanged, and its results do not depend on the results held
    before. *)
Theorem X5_search_web_rerun_is_stable :
  forall tavily : string -> result (list Dict),
    (forall s s' prior,
       CreatePersonalityBlog.search_web tavily s = Ok s' ->
       CreatePersonalityBlog.search_web tavily s' = Ok s'
       /\ CreatePersonalityBlog.search_web tavily
            (CreatePersonalityBlog.set_search_results s prior) = Ok s')
    /\ (forall s s' prior,
          UpdatePeopleBlogs.search_web tavily s = Ok s' ->
          UpdatePeopleBlogs.search_web tavily s' = Ok s'
          /\ UpdatePeopleBlogs.search_web tavily
               (UpdatePeopleBlogs.set_search_results s prior) = Ok s').
Proof.
  intros tavily. split; intros s s' prior H.
  - unfold CreatePersonalityBlog.search_web in *.
    destruct (CreatePersonalityBlog.search_loop tavily
                (CreatePersonalityBlog.search_queries s) []) as [rs|e] eqn:E;
      [|discriminate].
    simpl in H. injection H as <-. simpl. rewrite E. simpl. split; reflexivity.
  - unfold UpdatePeopleBlogs.search_web in *.
    destruct (UpdatePeopleBlogs.search_loop tavily
                (UpdatePeopleBlogs.search_queries s) []) as [rs|e] eqn:E;
      [|discriminate].
    simpl in H. injection H as <-. simpl. rewrite E. simpl. split; reflexivity.
Qed.

Lemma X5_search_web_rerun_witness :
  CreatePersonalityBlog.search_web Sample.search_one
    (CreatePersonalityBlog.set_search_results Sample.Personality.s_prior
       [Sample.other_result])
  = Ok (CreatePersonalityBlog.set_search_results Sample.Personality.s_prior
          [Sample.other_result]).
Proof.
  pose proof (X5_search_web_rerun_is_stable Sample.search_one) as [H _].
  apply (H Sample.Personality.s_prior _ []). reflexivity.
Defined.

(** X6: [search_web] of updateBlogGraph.py builds the search tool first:
    when that raises, the error leaves the handler, even with no query to
    run. With the tool built, the handler returns one update, for
    [search_results] only: the empty list, without calling the tool, when
    [search_queries] is [None] or empty; the answers joined in query order
    when the tool answers every query; and when the tool raises on a query
    after answering the earlier ones, that error leaves the handler. *)
Theorem X6_graph_search_web_update :
  forall (new_tavily_search : result (string -> result (list Dict)))
         (s : UpdateBlogGraph.BlogUpdateState),
    (forall e, new_tavily_search = Raise e ->
       UpdateBlogGraph.search_web new_tavily_search s = Raise e)
    /\ (forall tavily, new_tavily_search = Ok tavily ->
          (UpdateBlogGraph.search_queries s = None
           \/ UpdateBlogGraph.search_queries s = Some [] ->
           UpdateBlogGraph.search_web new_tavily_search s
           = Ok [UpdateBlogGraph.Set_search_results []])
          /\ (forall queries responses,
                UpdateBlogGraph.search_queries s = Some queries ->
                Forall2 (fun q r => tavily q = Ok r) queries responses ->
                UpdateBlogGraph.search_web new_tavily_search s
                = Ok [UpdateBlogGraph.Set_search_results (concat responses)])
          /\ (forall before q after responses e,
                UpdateBlogGraph.search_queries s = Some (before ++ q :: after) ->
                Forall2 (fun q r => tavily q = Ok r) before responses ->
                tavily q = Raise e ->
                UpdateBlogGraph.search_web new_tavily_search s = Raise e)).
Proof.
  intros new_tavily s. unfold UpdateBlogGraph.search_web. split.
  - intros e ->. reflexivity.
  - intros tavily ->. simpl. split; [|split].
    + intros [-> | ->]; reflexivity.
    + intros queries responses -> H. simpl.
      rewrite (graph_search_loop_gathers _ _ [] _ H). reflexivity.
    + intros before q after responses e -> Hbefore Hq. simpl.
      rewrite (graph_search_loop_raises _ _ _ after [] _ _ Hbefore Hq). reflexivity.
Qed.

Lemma X6_graph_search_web_witness :
  UpdateBlogGraph.search_web (Raise Sample.timeout_error) Sample.Blog.s0
  = Raise Sample.timeout_error
  /\ UpdateBlogGraph.search_web (Ok Sample.search_down) Sample.Blog.s0
     = Ok [UpdateBlogGraph.Set_search_results []]
  /\ UpdateBlogGraph.search_web (Ok Sample.search_flaky)
       (UpdateBlogGraph.assign Sample.Blog.s0
          (UpdateBlogGraph.Set_search_queries ["a"; "bad"]))
     = Raise Sample.timeout_error
  /\ UpdateBlogGraph.search_web (Ok Sample.search_one)
       (UpdateBlogGraph.assign Sample.Blog.s0
          (UpdateBlogGraph.Set_search_queries ["a"; "b"]))
     = Ok [UpdateBlogGraph.Set_search_results [Sample.other_result; Sample.other_result]].
Proof.
  split; [|split; [|split]].
  - apply (proj1 (X6_graph_search_web_update (Raise Sample.timeout_error) _)).
    reflexivity.
  - destruct (proj2 (X6_graph_search_web_update (Ok Sample.search_down) Sample.Blog.s0)
                _ eq_refl) as (H & _).
    apply H. right. reflexivity.
  - destruct (proj2 (X6_graph_search_web_update (Ok Sample.search_flaky)
                       (UpdateBlogGraph.assign Sample.Blog.s0
                          (UpdateBlogGraph.Set_search_queries ["a"; "bad"])))
                _ eq_refl) as (_ & _ & H).
    apply (H ["a"] "bad" [] [[Sample.other_result]]).
    + reflexivity.
    + repeat constructor.
    + reflexivity.
  - destruct (proj2 (X6_graph_search_web_update (Ok Sample.search_one)
                       (UpdateBlogGraph.assign Sample.Blog.s0
                          (UpdateBlogGraph.Set_search_queries ["a"; "b"])))
                _ eq_refl) as (_ & H & _).
    apply (H ["a"; "b"] [[Sample.other_result]; [Sample.other_result]]).
    + reflexivity.
    + repeat constructor.
Defined.

(** ** Fetching the blog *)

(** X7: after [fetch_blog_content] of updatePeopleBlogs.py the field
    [current_content] holds a text that is not empty, so the analysis that
    follows always has something to read; after a failed load that text is
    the error message, and it is what [analyze_content] passes to its
    chain. *)
Theorem X7_people_fetch_content_not_empty :
  forall (load_documents : string -> result (list Document))
         (analyze_chain : option string -> result UpdatePeopleBlogs.AnalyzeContentOutput)
         (s : UpdatePeopleBlogs.BlogUpdateState),
    let s' := UpdatePeopleBlogs.fetch_blog_content load_documents s in
    (exists text, UpdatePeopleBlogs.current_content s' = Some text /\ text <> "")
    /\ (forall e, load_documents (UpdatePeopleBlogs.blog_url s) = Raise e ->
          UpdatePeopleBlogs.analyze_content analyze_chain s'
          = (analysis ← analyze_chain (Some ("Error loading blog: " +:+ exn_text e));
             Ok (UpdatePeopleBlogs.set_analysis s' analysis))).
Proof.
  intros load ac s s'. subst s'.
  unfold UpdatePeopleBlogs.fetch_blog_content, UpdatePeopleBlogs.fetch_body, try_except.
  destruct (load (UpdatePeopleBlogs.blog_url s)) as [[|doc rest]|e] eqn:E; simpl.
  - split; [eexists; split; [reflexivity | discriminate] | discriminate].
  - destruct (truthy (page_content doc)) eqn:T; simpl.
    + split; [|discriminate].
      destruct (page_content doc) as [[|c text]|]; try discriminate.
      eexists; split; [reflexivity | discriminate].
    + split; [eexists; split; [reflexivity | discriminate] | discriminate].
  - split; [eexists; split; [reflexivity | discriminate]|].
    intros e' [= <-]. reflexivity.
Qed.

Lemma X7_people_fetch_witness :
  UpdatePeopleBlogs.analyze_content
    (fun c => Raise (Exn "ValueError" (default "" c)))
    (UpdatePeopleBlogs.fetch_blog_content Sample.load_fails Sample.People.s0)
  = Raise (Exn "ValueError" "Error loading blog: no route").
Proof.
  pose proof (X7_people_fetch_content_not_empty Sample.load_fails
                (fun c => Raise (Exn "ValueError" (default "" c))) Sample.People.s0)
    as [_ H].
  rewrite (H (Exn "ConnectionError" "no route") eq_refl). reflexivity.
Defined.

(** X8: [fetch_blog_content] of updateBlogGraph.py has no [try]: it raises
    exactly when the loader raises, and with the same error. When it
    returns, its update writes [current_content] only, with a text that is
    not empty: the first page's content, or the "No content" message. *)
Theorem X8_graph_fetch_propagates_loader_error :
  forall (load_documents : string -> result (list Document))
         (s : UpdateBlogGraph.BlogUpdateState),
    (forall e, UpdateBlogGraph.fetch_blog_content load_documents s = Raise e
               <-> load_documents (UpdateBlogGraph.blog_url s) = Raise e)
    /\ (forall update, UpdateBlogGraph.fetch_blog_content load_documents s = Ok update ->
          exists text, update = [UpdateBlogGraph.Set_current_content text] /\ text <> "")
    /\ (forall doc rest text,
          load_documents (UpdateBlogGraph.blog_url s) = Ok (doc :: rest) ->
          page_content doc = Some text -> text <> "" ->
          UpdateBlogGraph.fetch_blog_content load_documents s
          = Ok [UpdateBlogGraph.Set_current_content text]).
Proof.
  intros load s. unfold UpdateBlogGraph.fetch_blog_content.
  destruct (load (UpdateBlogGraph.blog_url s)) as [[|doc rest]|e0] eqn:E; simpl.
  - split; [intros e; split; discriminate|].
    split; [|discriminate].
    intros u [= <-]. eexists; split; [reflexivity | discriminate].
  - split; [|split].
    + intros e. split; [|discriminate].
      destruct (page_content doc) as [[|c t]|]; discriminate.
    + intros u. destruct (page_content doc) as [[|c t]|]; simpl; intros [= <-];
        eexists; (split; [reflexivity | discriminate]).
    + intros d r text [= <- <-] -> Hne. destruct text; [contradiction | reflexivity].
  - split; [intros e; split; intros [= ->]; reflexivity|].
    split; discriminate.
Qed.

Lemma X8_graph_fetch_witness :
  UpdateBlogGraph.fetch_blog_content Sample.load_fails Sample.Blog.s0
  = Raise (Exn "ConnectionError" "no route")
  /\ UpdateBlogGraph.fetch_blog_content Sample.load_page Sample.Blog.s0
     = Ok [UpdateBlogGraph.Set_current_content "old post"].
Proof.
  split.
  - apply (proj1 (X8_graph_fetch_propagates_loader_error Sample.load_fails Sample.Blog.s0)).
    reflexivity.
  - apply (proj2 (proj2 (X8_graph_fetch_propagates_loader_error
                           Sample.load_page Sample.Blog.s0))
             {| page_content := Some "old post" |} []); [reflexivity.. | discriminate].
Defined.

(** ** The feedback loop of updateBlogGraph.py *)

(** X9: every Command that [human_feedback] returns names one of the two
    destinations of its [Command[Literal[...]]] annotation, each a
    registered stage, and its update writes a single field; entered
    without an external input it returns no Command at all. *)
Theorem X9_human_feedback_goto_is_annotated :
  forall (s : UpdateBlogGraph.BlogUpdateState) (resume : option pyval) goto update,
    UpdateBlogGraph.human_feedback s resume = Ok (Command goto update) ->
    resume <> None
    /\ goto ∈ command_targets UpdateBlogGraph.builder "human_feedback"
    /\ registered UpdateBlogGraph.builder goto = true
    /\ exists v, update = [UpdateBlogGraph.Set_approved_outline v]
                 \/ update = [UpdateBlogGraph.Set_proposed_outline v].
Proof.
  intros s [input|] goto update; [|discriminate].
  unfold UpdateBlogGraph.human_feedback, interrupt.
  destruct (UpdateBlogGraph.approves input); intros [= <- <-].
  - split; [discriminate|]. split; [vm_compute; set_solver|].
    split; [reflexivity|]. eauto.
  - split; [discriminate|]. split; [vm_compute; set_solver|].
    split; [reflexivity|]. eauto.
Qed.

Lemma X9_human_feedback_goto_witness :
  "create_outline" ∈ command_targets UpdateBlogGraph.builder "human_feedback".
Proof.
  apply (X9_human_feedback_goto_is_annotated Sample.Blog.s_outline
           (Some (PyStr "add section Y")) "create_outline"
           [UpdateBlogGraph.Set_proposed_outline "add section Y"]).
  reflexivity.
Defined.

Lemma graph_create_outline_reads_results
      (outline_chain : result (string -> result string))
      (s1 s2 : UpdateBlogGraph.BlogUpdateState) :
  UpdateBlogGraph.search_results s1 = UpdateBlogGraph.search_results s2 ->
  UpdateBlogGraph.create_outline outline_chain s1
  = UpdateBlogGraph.create_outline outline_chain s2.
Proof. intros H. unfold UpdateBlogGraph.create_outline. rewrite H. reflexivity. Qed.

(** X10: a revision typed at the feedback prompt does not reach the next
    outline. For an input that is not an approval, [human_feedback] sends
    the run back to [create_outline] with the revision stored in
    [proposed_outline]; [create_outline] reads [search_results] only, so it
    returns what it returns without the revision, and merging its update
    overwrites the revision. *)
Theorem X10_revision_text_is_discarded :
  forall (outline_chain : result (string -> result string))
         (s : UpdateBlogGraph.BlogUpdateState) (input : pyval),
    UpdateBlogGraph.approves input = false ->
    exists revision,
      UpdateBlogGraph.human_feedback s (Some input)
      = Ok (Command "create_outline" [UpdateBlogGraph.Set_proposed_outline revision])
      /\ let s' := UpdateBlogGraph.merge_update s
                     [UpdateBlogGraph.Set_proposed_outline revision] in
         UpdateBlogGraph.create_outline outline_chain s'
         = UpdateBlogGraph.create_outline outline_chain s
         /\ forall update,
              UpdateBlogGraph.create_outline outline_chain s' = Ok update ->
              UpdateBlogGraph.merge_update s' update
              = UpdateBlogGraph.merge_update s update.
Proof.
  intros oc s input Hno. exists (UpdateBlogGraph.revised_of input).
  unfold UpdateBlogGraph.human_feedback, interrupt. rewrite Hno.
  split; [reflexivity|]. cbv zeta. split.
  - apply graph_create_outline_reads_results. reflexivity.
  - intros update. unfold UpdateBlogGraph.create_outline.
    destruct oc as [chain|e]; [|discriminate]. simpl.
    destruct (UpdateBlogGraph.format_search_results _) as [text|e]; [|discriminate].
    simpl. destruct (chain text) as [o|e]; [|discriminate].
    simpl. intros [= <-]. reflexivity.
Qed.

Lemma X10_revision_witness :
  UpdateBlogGraph.create_outline (Ok Sample.Blog.outline_chain)
    (UpdateBlogGraph.merge_update Sample.Blog.s_outline
       [UpdateBlogGraph.Set_proposed_outline "add section Y"])
  = UpdateBlogGraph.create_outline (Ok Sample.Blog.outline_chain) Sample.Blog.s_outline.
Proof.
  destruct (X10_revision_text_is_discarded (Ok Sample.Blog.outline_chain)
              Sample.Blog.s_outline (PyStr "add section Y") eq_refl)
    as (revision & Hcmd & Hsame & _).
  injection Hcmd as <-. exact Hsame.
Defined.

(** ** Approval in createPersonalityBlog.py *)

(** Once [update_and_approve_outline] has run, with or without a new
    outline, the router answers "approved"; on a freshly constructed state
    it answers "not_approved". *)
Lemma router_after_approval
      (s : CreatePersonalityBlog.PersonalityBlogState) (u : option string) :
  CreatePersonalityBlog.check_outline_approval
    (CreatePersonalityBlog.update_and_approve_outline s u)
  = ("approved",
     CreatePersonalityBlog.set_status
       (CreatePersonalityBlog.update_and_approve_outline s u)
       CreatePersonalityBlog.OUTLINE_APPROVED)
  /\ forall p t,
       fst (CreatePersonalityBlog.check_outline_approval
              (CreatePersonalityBlog.initial_state p t)) = "not_approved".
Proof. split; [destruct u; reflexivity | reflexivity]. Qed.

(** X11: no handler registered in the graph of createPersonalityBlog.py
    changes the inputs [person] and [enneagram_type], and none but
    [update_and_approve_outline] changes [outline_approved]. *)
Theorem X11_personality_handlers_keep_inputs :
  forall query_chain tavily_search research_chain outline_chain blog_chain
         n handler s resume s',
    CreatePersonalityBlog.handlers query_chain tavily_search research_chain
      outline_chain blog_chain n = Some handler ->
    handler s resume = Ok (PartialUpdate s') ->
    CreatePersonalityBlog.person s' = CreatePersonalityBlog.person s
    /\ CreatePersonalityBlog.enneagram_type s' = CreatePersonalityBlog.enneagram_type s
    /\ (n <> "update_and_approve_outline" ->
        CreatePersonalityBlog.outline_approved s'
        = CreatePersonalityBlog.outline_approved s).
Proof.
  intros qc ts rc oc bc n handler s resume s'.
  unfold CreatePersonalityBlog.handlers.
  repeat case_bool_decide; intros [= <-]; subst n;
    unfold CreatePersonalityBlog.as_node; simpl.
  - unfold CreatePersonalityBlog.generate_search_queries.
    destruct (qc _ _); simpl; intros [= <-]. repeat split; reflexivity.
  - unfold CreatePersonalityBlog.search_web.
    destruct (CreatePersonalityBlog.search_loop _ _ _); simpl; intros [= <-].
    repeat split; reflexivity.
  - unfold CreatePersonalityBlog.organize_research.
    destruct (CreatePersonalityBlog.format_search_results _); simpl; [|discriminate].
    destruct (rc _ _ _); simpl; intros [= <-]. repeat split; reflexivity.
  - unfold CreatePersonalityBlog.create_content_outline.
    destruct (oc _ _ _ _); simpl; intros [= <-]. repeat split; reflexivity.
  - discriminate.
  - intros [= <-]. split; [|split]; [reflexivity.. | contradiction].
  - unfold CreatePersonalityBlog.generate_blog_content.
    destruct (bc _ _ _ _ _); simpl; intros [= <-]. repeat split; reflexivity.
Qed.

Lemma X11_personality_handlers_witness :
  CreatePersonalityBlog.outline_approved
    (CreatePersonalityBlog.set_search_results Sample.Personality.s_prior
       [Sample.other_result])
  = CreatePersonalityBlog.outline_approved Sample.Personality.s_prior.
Proof.
  refine (proj2 (proj2 (X11_personality_handlers_keep_inputs
            Sample.Personality.query_chain Sample.search_one
            Sample.Personality.research_chain Sample.Personality.outline_chain
            Sample.Personality.blog_chain "search_web" _
            Sample.Personality.s_prior None _ eq_refl eq_refl)) _).
  discriminate.
Defined.

Lemma not_in_reachable_set (g : GraphDef) (n : string) :
  bool_decide (n ∈ reachable_set g) = false -> ~ reachable g n.
Proof.
  intros H Hr. apply bool_decide_eq_false in H. apply H.
  apply reachable_set_complete. exact Hr.
Qed.

(** X12: in the graph of createPersonalityBlog.py the stages
    [update_and_approve_outline] and [check_outline_approval] are
    registered but cannot be reached from START, while
    [generate_blog_content] and END can; in the two other graphs every
    registered stage can be reached. *)
Theorem X12_approval_stages_unreachable :
  ~ reachable CreatePersonalityBlog.builder "update_and_approve_outline"
  /\ ~ reachable CreatePersonalityBlog.builder "check_outline_approval"
  /\ reachable CreatePersonalityBlog.builder "generate_blog_content"
  /\ reachable CreatePersonalityBlog.builder END
  /\ (forall n, n ∈ nodes UpdatePeopleBlogs.builder -> reachable UpdatePeopleBlogs.builder n)
  /\ (forall n, n ∈ nodes UpdateBlogGraph.builder -> reachable UpdateBlogGraph.builder n).
Proof.
  split; [apply not_in_reachable_set; vm_compute; reflexivity|].
  split; [apply not_in_reachable_set; vm_compute; reflexivity|].
  split; [apply reachable_set_sound; vm_compute; reflexivity|].
  split; [apply reachable_set_sound; vm_compute; reflexivity|].
  split; intros n Hn; apply reachable_set_sound;
    simpl in Hn; repeat (apply elem_of_cons in Hn as [-> | Hn];
                         [vm_compute; reflexivity|]);
    apply elem_of_nil in Hn; destruct Hn.
Qed.

(** ** Runs of the personality graph *)

Ltac eval_decide :=
  repeat match goal with
         | |- context [bool_decide ?P] =>
             let b := eval vm_compute in (bool_decide P) in
             change (bool_decide P) with b
         end.


Section PersonalityRuns.
Variable query_chain : string -> string -> result (list string * list string).
Variable tavily_search : string -> result (list Dict).
Variable research_chain : string -> string -> string -> result (string * string).
Variable outline_chain :
  string -> string -> option string -> option string -> result string.
Variable blog_chain :
  string -> string -> option string -> option string -> option string -> result string.

Local Abbreviation G :=
  (CreatePersonalityBlog.graph query_chain tavily_search research_chain
     outline_chain blog_chain).














End PersonalityRuns.


(** ** Runs of the update graph *)

Section BlogRuns.
Variable load_documents : string -> result (list Document).
Variable analyze_chain : option string -> result (string * string).
Variable query_chain : option string -> option string -> result (list string).
Variable content_chain : option string -> result string.
Variable new_tavily_search : result (string -> result (list Dict)).
Variable new_outline_chain : result (string -> result string).

Local Abbreviation G :=
  (UpdateBlogGraph.graph load_documents analyze_chain query_chain content_chain
     new_tavily_search new_outline_chain).





















End BlogRuns.



(** ** Configuration.from_runnable_config *)

Section ConfigurationFacts.
Import Configuration.

Lemma kwarg_of_truthy_values (f : string -> cfgval) (names : list string)
      (name : string) (dflt : cfgval) :
  kwarg (filter (fun kv => cfg_truthy (snd kv)) (map (fun n => (n, f n)) names)) name dflt
  = if bool_decide (name ∈ names)
    then (if cfg_truthy (f name) then f name else dflt)
    else dflt.
Proof.
  induction names as [|n names IH]; [reflexivity|].
  rewrite map_cons, filter_cons.
  assert (Hmem : bool_decide (name ∈ n :: names)
                 = bool_decide (n = name) || bool_decide (name ∈ names)).
  { destruct (decide (n = name)) as [->|Hne].
    - rewrite (bool_decide_eq_true_2 (name = name)) by reflexivity.
      rewrite (bool_decide_eq_true_2 (name ∈ name :: names)) by left.
      reflexivity.
    - rewrite (bool_decide_eq_false_2 (n = name)) by exact Hne. simpl.
      apply bool_decide_ext. rewrite elem_of_cons. intuition congruence. }
  rewrite Hmem. clear Hmem.
  destruct (decide _) as [Ht|Ht]; simpl in Ht.
  - simpl. destruct (decide (n = name)) as [->|Hne].
    + rewrite (bool_decide_eq_true_2 (name = name)) by reflexivity. simpl.
      apply Is_true_true in Ht. rewrite Ht. reflexivity.
    + rewrite (bool_decide_eq_false_2 (n = name)) by exact Hne. simpl. exact IH.
  - rewrite IH. destruct (decide (n = name)) as [->|Hne].
    + rewrite (bool_decide_eq_true_2 (name = name)) by reflexivity. simpl.
      apply Is_true_false in Ht. rewrite Ht.
      destruct (bool_decide (name ∈ names)); reflexivity.
    + rewrite (bool_decide_eq_false_2 (n = name)) by exact Hne. reflexivity.
Qed.

(** The dictionary under ["configurable"], or the empty one. *)
Local Abbreviation configurable_of config :=
  (match config with
   | Some c => match c !! "configurable" with Some d => d | None => ∅ end
   | None => ∅
   end).

Lemma from_config_field (environ : gmap string string)
      (config : option (gmap string (gmap string cfgval))) (name : string) :
  name ∈ field_names ->
  getattr (from_runnable_config environ config) name
  = if cfg_truthy (field_value environ (configurable_of config) name)
    then Some (field_value environ (configurable_of config) name)
    else getattr defaults name.
Proof.
  intros Hname. unfold from_runnable_config, construct.
  unfold field_names in Hname.
  repeat (apply elem_of_cons in Hname as [-> | Hname]);
    [.. | apply elem_of_nil in Hname; destruct Hname];
    unfold getattr; eval_decide; cbv iota;
    cbn [report_structure number_of_queries max_search_depth planner_provider
         planner_model writer_provider writer_model search_api];
    rewrite kwarg_of_truthy_values;
    (rewrite bool_decide_eq_true_2 by (unfold field_names; set_solver));
    destruct (cfg_truthy _); reflexivity.
Qed.

(** X16: an environment variable named as a field in upper case takes
    precedence over the configurable entry of that field. When it is set to
    a non-empty text the field holds that text, uncoerced, even for a field
    declared [int]; when it is set to the empty text the field falls back
    to its default and the configured value is not looked at. *)
Theorem X16_environment_overrides_configurable :
  forall (environ : gmap string string)
         (config : option (gmap string (gmap string cfgval))) (name v : string),
    name ∈ field_names ->
    environ !! upper name = Some v ->
    getattr (from_runnable_config environ config) name
    = if String.eqb v "" then getattr defaults name else Some (Py (PyStr v)).
Proof.
  intros environ config name v Hname Henv.
  rewrite (from_config_field _ _ _ Hname). unfold field_value. rewrite Henv. simpl.
  destruct (String.eqb v ""); reflexivity.
Qed.

Lemma X16_environment_witness :
  getattr (from_runnable_config SampleConfig.environ (Some SampleConfig.config))
          "number_of_queries" = Some (Py (PyStr "5"))
  /\ getattr (from_runnable_config SampleConfig.environ (Some SampleConfig.config))
             "planner_model" = Some (Py (PyStr "gpt-4o-mini")).
Proof.
  split.
  - exact (X16_environment_overrides_configurable SampleConfig.environ
             (Some SampleConfig.config) "number_of_queries" "5"
             ltac:(unfold field_names; set_solver) eq_refl).
  - exact (X16_environment_overrides_configurable SampleConfig.environ
             (Some SampleConfig.config) "planner_model" ""
             ltac:(unfold field_names; set_solver) eq_refl).
Defined.

(** X17: without an environment variable for a field, the field takes the
    configured value when that value is truthy, unchanged; a configured
    value that is falsy ([0], [False], the empty text, [None]) is dropped
    and the field keeps its default, as it does when the entry is
    missing. *)
Theorem X17_falsy_configured_value_gives_default :
  forall (environ : gmap string string) (c : gmap string (gmap string cfgval))
         (d : gmap string cfgval) (name : string),
    name ∈ field_names ->
    environ !! upper name = None ->
    c !! "configurable" = Some d ->
    getattr (from_runnable_config environ (Some c)) name
    = match d !! name with
      | Some v => if cfg_truthy v then Some v else getattr defaults name
      | None => getattr defaults name
      end.
Proof.
  intros environ c d name Hname Henv Hc.
  rewrite (from_config_field _ _ _ Hname). unfold field_value. rewrite Henv, Hc.
  destruct (d !! name) as [v|]; reflexivity.
Qed.

Lemma X17_falsy_configured_witness :
  getattr (from_runnable_config SampleConfig.environ (Some SampleConfig.config))
          "max_search_depth" = Some (Py (PyInt 2))
  /\ getattr (from_runnable_config SampleConfig.environ (Some SampleConfig.config))
             "writer_model" = Some (Py (PyStr "claude")).
Proof.
  split.
  - exact (X17_falsy_configured_value_gives_default SampleConfig.environ
             SampleConfig.config SampleConfig.configurable "max_search_depth"
             ltac:(unfold field_names; set_solver) eq_refl eq_refl).
  - exact (X17_falsy_configured_value_gives_default SampleConfig.environ
             SampleConfig.config SampleConfig.configurable "writer_model"
             ltac:(unfold field_names; set_solver) eq_refl eq_refl).
Defined.

Lemma from_config_agree (env1 env2 : gmap string string)
      (config1 config2 : option (gmap string (gmap string cfgval))) :
  (forall name, name ∈ field_names ->
     field_value env1 (configurable_of config1) name
     = field_value env2 (configurable_of config2) name) ->
  from_runnable_config env1 config1 = from_runnable_config env2 config2.
Proof.
  intros H. unfold from_runnable_config. do 2 f_equal.
  apply map_ext_in. intros name Hin. f_equal. apply H, list_elem_of_In, Hin.
Qed.

(** X18: the result depends on the environment and on the configurable
    dictionary through the eight field names only. With no variable of
    those names in the environment, a missing config, a config without
    ["configurable"] and an empty one all give the defaults; and an entry
    of the configurable dictionary under any other key changes nothing. *)
Theorem X18_only_field_names_matter :
  forall (environ : gmap string string),
    ((forall name, name ∈ field_names -> environ !! upper name = None) ->
     from_runnable_config environ None = defaults
     /\ (forall c, c !! "configurable" = None ->
           from_runnable_config environ (Some c) = defaults)
     /\ (forall c, c !! "configurable" = Some ∅ ->
           from_runnable_config environ (Some c) = defaults))
    /\ (forall c d key v,
          key ∉ field_names ->
          from_runnable_config environ (Some (<["configurable" := <[key := v]> d]> c))
          = from_runnable_config environ (Some (<["configurable" := d]> c))).
Proof.
  intros environ. split.
  - intros Henv.
    assert (Hnone : from_runnable_config environ None = defaults).
    { unfold from_runnable_config, defaults. f_equal.
      replace (map (fun name => (name, field_value environ ∅ name)) field_names)
        with (map (fun name => (name, Py PyNone)) field_names); [reflexivity|].
      apply map_ext_in. intros name Hin. f_equal. unfold field_value.
      rewrite (Henv name) by (apply list_elem_of_In, Hin). reflexivity. }
    split; [exact Hnone|]. split; intros c Hc; rewrite <- Hnone;
      apply from_config_agree; intros name _; rewrite Hc; reflexivity.
  - intros c d key v Hkey. apply from_config_agree. intros name Hname.
    rewrite !lookup_insert_eq. unfold field_value.
    destruct (environ !! upper name); [reflexivity|].
    rewrite lookup_insert_ne; [reflexivity|].
    intros ->. contradiction.
Qed.

Lemma X18_only_field_names_witness :
  from_runnable_config ∅ (Some ∅) = defaults
  /\ from_runnable_config ∅
       (Some (<["configurable" := <["thread_id" := Py (PyStr "t1")]> ∅]> ∅))
     = from_runnable_config ∅ (Some (<["configurable" := ∅]> ∅)).
Proof.
  destruct (X18_only_field_names_matter ∅) as [Hdefault Hkey]. split.
  - destruct (Hdefault (fun name _ => lookup_empty (upper name))) as (_ & Hmissing & _).
    apply Hmissing. reflexivity.
  - apply Hkey. unfold field_names. intros Hin.
    repeat (apply elem_of_cons in Hin as [Hin|Hin]; [discriminate|]).
    apply elem_of_nil in Hin. exact Hin.
Defined.
End ConfigurationFacts.

(** ** Formatting inside the stages *)

(** X19: the stages that format the search results for a chain. In
    createPersonalityBlog.py and updatePeopleBlogs.py the formatting never
    fails, so [organize_research] and [create_outline] raise only the
    error of their chain, called on the formatted text. In
    updateBlogGraph.py [create_outline] first builds its model and chain,
    and an error of that construction leaves the handler before anything
    is formatted; with the chain built, it raises the TypeError of the
    formatting, whatever the chain does, as soon as a stored result has
    ['content'] at [None], and otherwise it raises only the error of the
    chain. *)
Theorem X19_stage_errors_come_from_chain_or_format :
  (forall research_chain s e,
     CreatePersonalityBlog.organize_research research_chain s = Raise e ->
     exists text,
       CreatePersonalityBlog.format_search_results
         (CreatePersonalityBlog.search_results s) = Ok text
       /\ research_chain (CreatePersonalityBlog.person s)
            (CreatePersonalityBlog.enneagram_type s) text = Raise e)
  /\ (forall outline_chain s e,
        UpdatePeopleBlogs.create_outline outline_chain s = Raise e ->
        exists text,
          UpdatePeopleBlogs.format_search_results
            (UpdatePeopleBlogs.search_results s) = Ok text
          /\ outline_chain (UpdatePeopleBlogs.person s)
               (UpdatePeopleBlogs.outline s) text = Raise e)
  /\ (forall (new_outline_chain : result (string -> result string)) s results,
        UpdateBlogGraph.search_results s = Some results ->
        (forall e, new_outline_chain = Raise e ->
           UpdateBlogGraph.create_outline new_outline_chain s = Raise e)
        /\ (forall chain, new_outline_chain = Ok chain ->
              (existsb content_is_none results = true ->
               UpdateBlogGraph.create_outline new_outline_chain s
               = Raise (Exn "TypeError" "'NoneType' object is not subscriptable"))
              /\ (existsb content_is_none results = false ->
                  forall e,
                    UpdateBlogGraph.create_outline new_outline_chain s = Raise e ->
                    exists text, chain text = Raise e))).
Proof.
  split; [|split].
  - intros rc s e. unfold CreatePersonalityBlog.organize_research.
    destruct (personality_format_total (CreatePersonalityBlog.search_results s))
      as [text ->]. simpl.
    destruct (rc _ _ text) as [r|e'] eqn:E; simpl; [discriminate|].
    intros [= <-]. eauto.
  - intros oc s e. unfold UpdatePeopleBlogs.create_outline.
    destruct (people_format_total (UpdatePeopleBlogs.search_results s)) as [text ->].
    simpl. destruct (oc _ _ text) as [r|e'] eqn:E; simpl; [discriminate|].
    intros [= <-]. eauto.
  - intros noc s results Hs. unfold UpdateBlogGraph.create_outline.
    rewrite Hs. split.
    + intros e ->. reflexivity.
    + intros chain ->. simpl. split; intros Hnone.
      * destruct results as [|r l]; [discriminate|].
        unfold UpdateBlogGraph.format_search_results.
        rewrite graph_format_blocks_cases, Hnone. reflexivity.
      * intros e.
        assert (Hok : exists text,
                   UpdateBlogGraph.format_search_results results = Ok text).
        { destruct results as [|r l]; [eexists; reflexivity|].
          unfold UpdateBlogGraph.format_search_results.
          rewrite graph_format_blocks_cases, Hnone. eexists; reflexivity. }
        destruct Hok as [text ->]. simpl.
        destruct (chain text) as [r|e'] eqn:E; simpl; [discriminate|].
        intros [= <-]. eauto.
Qed.

Lemma X19_stage_errors_witness :
  UpdateBlogGraph.create_outline (Ok Sample.Blog.outline_chain)
    (UpdateBlogGraph.assign Sample.Blog.s0
       (UpdateBlogGraph.Set_search_results [Sample.full_result; Sample.null_content]))
  = Raise (Exn "TypeError" "'NoneType' object is not subscriptable")
  /\ UpdateBlogGraph.create_outline (Raise Sample.timeout_error)
       (UpdateBlogGraph.assign Sample.Blog.s0
          (UpdateBlogGraph.Set_search_results [Sample.full_result; Sample.null_content]))
     = Raise Sample.timeout_error.
Proof.
  destruct X19_stage_errors_come_from_chain_or_format as (_ & _ & H).
  split.
  - destruct (H (Ok Sample.Blog.outline_chain)
                (UpdateBlogGraph.assign Sample.Blog.s0
                   (UpdateBlogGraph.Set_search_results
                      [Sample.full_result; Sample.null_content]))
                [Sample.full_result; Sample.null_content] eq_refl) as [_ Hbuilt].
    apply (Hbuilt Sample.Blog.outline_chain eq_refl). reflexivity.
  - destruct (H (Raise Sample.timeout_error)
                (UpdateBlogGraph.assign Sample.Blog.s0
                   (UpdateBlogGraph.Set_search_results
                      [Sample.full_result; Sample.null_content]))
                [Sample.full_result; Sample.null_content] eq_refl) as [Hfail _].
    apply Hfail. reflexivity.
Defined.

Lemma X12_approval_stages_witness :
  reachable UpdateBlogGraph.builder "update_blog".
Proof.
  destruct X12_approval_stages_unreachable as (_ & _ & _ & _ & _ & H).
  apply H. unfold UpdateBlogGraph.builder. simpl. set_solver.
Defined.

(** ** Determinism and revisits *)




